(** * dbus-ble-sensors-py: the register decoder, the configuration validator,
      the Teltonika register table and the scan callback

    A shallow embedding of [ble_device.py], [ble_role.py],
    [ble_device_teltonika.py] and the scan callback of
    [dbus_ble_sensors.py], with the properties of the decoder stated and
    proved over it.

    Conventions of the embedding.
    - A Python [int] is a [Z].  A Python [float] is idealised as an exact
      rational ([Q]): true division and addition are exact, there is no
      rounding and no overflow.  The distinction between [int] and [float]
      is kept ([4 / 2] is the float [2.0], not the int [2]).
    - [bytes] is a [list byte].
    - A Python exception is a value of [exn]; code that can raise returns a
      [result].
    - A dict read with literal keys (a register, a setting, an alarm) is a
      record whose optional keys are [option] fields: [None] is "the key
      is not in the dict".  Byte offsets, bit lengths and bit shifts are
      natural numbers ([N]).
    - The dict [values] built by the decoder is a [gmap]. *)

From Stdlib Require Import ZArith QArith Qreduction Strings.Byte Strings.Ascii.
From stdpp Require Import base option list gmap strings.

Local Open Scope Z_scope.

(** ** The Python run time used by the program *)

Module Py.

(** Keys of [info] whose absence or type the validators report. *)
Inductive config_error : Type :=
| KeyMissing (key : string)
| KeyIsNone (key : string)
| NotAnInteger (key : string)
| NotAList (key : string)
| EmptyList (key : string)
| UnknownRole (role : string)
| RegMissingName (index : nat)
| RegMissingKey (key : string) (reg_name : string)
| RegTypeNotAllowed (reg_name : string)
| RegMissingBits (reg_name : string)
| RegBitsNotMultipleOf8 (reg_name : string)
| RegUnknownRole (role : string) (reg_name : string)
| SettingMissingName (index : nat)
| SettingMissingProps (setting_name : string)
| SettingMissingKey (key : string) (setting_name : string)
| AlarmMissingName (index : nat)
| AlarmMissingKey (key : string) (alarm_name : string).

Inductive exn : Type :=
| ValueError (why : config_error)
| KeyError (key : string)
| TypeError
| AttributeError
| UnicodeDecodeError.

Inductive result (A : Type) : Type :=
| Ok (a : A)
| Raise (e : exn).
Arguments Ok {A} a.
Arguments Raise {A} e.

Definition bind {A B : Type} (m : result A) (k : A -> result B) : result B :=
  match m with
  | Ok a => k a
  | Raise e => Raise e
  end.

(** [for x in l: acc = step(acc, x)], stopping at the first exception. *)
Fixpoint for_each {A S : Type} (step : S -> A -> result S) (l : list A) (acc : S)
  : result S :=
  match l with
  | [] => Ok acc
  | x :: l' => bind (step acc x) (for_each step l')
  end.

(** [d[key]] on a dict read with a literal key. *)
Definition getitem {A : Type} (key : string) (field : option A) : result A :=
  match field with
  | Some a => Ok a
  | None => Raise (KeyError key)
  end.

Inductive pynum : Type :=
| PInt (z : Z)
| PFloat (q : Q).

Inductive pyval : Type :=
| VNone
| VBool (b : bool)
| VNum (n : pynum)
| VStr (code_points : list Z).

Definition num_Q (n : pynum) : Q :=
  match n with
  | PInt z => inject_Z z
  | PFloat q => q
  end.

Definition Q_is_zero (q : Q) : bool := Z.eqb (Qnum q) 0.

(** Truth value of a number, as [if scale := ...] tests it. *)
Definition num_truthy (n : pynum) : bool :=
  match n with
  | PInt z => negb (Z.eqb z 0)
  | PFloat q => negb (Q_is_zero q)
  end.

(** [bool(v)]. *)
Definition truthy (v : pyval) : bool :=
  match v with
  | VNone => false
  | VBool b => b
  | VNum n => num_truthy n
  | VStr s => negb (bool_decide (s = []))
  end.

(** [a / b], true division: the result is always a float. *)
Definition truediv (a b : pynum) : pynum :=
  PFloat (Qred (num_Q a / num_Q b)).

(** [a + b]: an int when both are, a float otherwise. *)
Definition add (a b : pynum) : pynum :=
  match a, b with
  | PInt x, PInt y => PInt (x + y)
  | _, _ => PFloat (Qred (num_Q a + num_Q b))
  end.

(** The number a value compares as, when it has one ([True == 1]). *)
Definition as_number (v : pyval) : option Q :=
  match v with
  | VBool b => Some (inject_Z (if b then 1 else 0))
  | VNum n => Some (num_Q n)
  | _ => None
  end.

(** [a == b]. *)
Definition eq (a b : pyval) : bool :=
  match a, b with
  | VNone, VNone => true
  | VStr s, VStr t => bool_decide (s = t)
  | _, _ =>
      match as_number a, as_number b with
      | Some x, Some y => Qeq_bool x y
      | _, _ => false
      end
  end.

Definition byte_val (b : byte) : Z := Z.of_N (Byte.to_N b).

(** [int.from_bytes(bs, byteorder='little', signed=False)]. *)
Fixpoint from_bytes_little (bs : list byte) : Z :=
  match bs with
  | [] => 0
  | b :: bs' => byte_val b + 256 * from_bytes_little bs'
  end.

Inductive byteorder : Type := Big | Little.

Definition from_bytes_unsigned (bs : list byte) (order : byteorder) : Z :=
  match order with
  | Little => from_bytes_little bs
  | Big => from_bytes_little (rev bs)
  end.

(** [int.from_bytes(bs, byteorder=order, signed=signed)]. *)
Definition from_bytes (bs : list byte) (order : byteorder) (signed : bool) : Z :=
  let u := from_bytes_unsigned bs order in
  let width := 8 * Z.of_nat (length bs) in
  if signed && (0 <? width) && (2 ^ (width - 1) <=? u) then u - 2 ^ width else u.

(** [bs[start:start + size]] for non-negative [start] and [size]. *)
Definition slice (bs : list byte) (start size : N) : list byte :=
  take (N.to_nat size) (drop (N.to_nat start) bs).

Definition is_continuation (b : byte) : bool :=
  (0x80 <=? byte_val b) && (byte_val b <=? 0xBF).

Definition continuation_bits (b : byte) : Z := Z.land (byte_val b) 0x3F.

(** [bs.decode(encoding='utf-8')] with the default strict error handler:
    the code points, or [None] where Python raises [UnicodeDecodeError]
    (a stray or missing continuation byte, an overlong form, a surrogate,
    a code point above U+10FFFF). *)
Fixpoint utf8_decode (bs : list byte) : option (list Z) :=
  match bs with
  | [] => Some []
  | b0 :: t0 =>
      let c0 := byte_val b0 in
      if c0 <? 0x80 then cons c0 <$> utf8_decode t0
      else if (0xC2 <=? c0) && (c0 <=? 0xDF) then
        match t0 with
        | b1 :: t1 =>
            if is_continuation b1
            then cons (Z.lor (Z.shiftl (Z.land c0 0x1F) 6) (continuation_bits b1))
                   <$> utf8_decode t1
            else None
        | _ => None
        end
      else if (0xE0 <=? c0) && (c0 <=? 0xEF) then
        match t0 with
        | b1 :: b2 :: t2 =>
            let cp := Z.lor (Z.shiftl (Z.land c0 0x0F) 12)
                        (Z.lor (Z.shiftl (continuation_bits b1) 6) (continuation_bits b2)) in
            if is_continuation b1 && is_continuation b2
               && (0x800 <=? cp) && negb ((0xD800 <=? cp) && (cp <=? 0xDFFF))
            then cons cp <$> utf8_decode t2
            else None
        | _ => None
        end
      else if (0xF0 <=? c0) && (c0 <=? 0xF4) then
        match t0 with
        | b1 :: b2 :: b3 :: t3 =>
            let cp := Z.lor (Z.shiftl (Z.land c0 0x07) 18)
                        (Z.lor (Z.shiftl (continuation_bits b1) 12)
                           (Z.lor (Z.shiftl (continuation_bits b2) 6) (continuation_bits b3))) in
            if is_continuation b1 && is_continuation b2 && is_continuation b3
               && (0x10000 <=? cp) && (cp <=? 0x10FFFF)
            then cons cp <$> utf8_decode t3
            else None
        | _ => None
        end
      else None
  end.

(** [list(set(l))]: the distinct elements of [l].  Python leaves the order
    of the result unspecified; the first occurrences are kept here. *)
Definition list_set {A : Type} `{EqDecision A} (l : list A) : list A :=
  rev (remove_dups (rev l)).

Definition map_ascii (f : ascii -> ascii) : string -> string :=
  fix go (s : string) : string :=
    match s with
    | EmptyString => EmptyString
    | String.String c s' => String.String (f c) (go s')
    end.

Definition ascii_upper (c : ascii) : ascii :=
  let n := nat_of_ascii c in
  if (97 <=? n)%nat && (n <=? 122)%nat then ascii_of_nat (n - 32) else c.

Definition ascii_lower (c : ascii) : ascii :=
  let n := nat_of_ascii c in
  if (65 <=? n)%nat && (n <=? 90)%nat then ascii_of_nat (n + 32) else c.

(** [s.upper()] and [s.lower()], on ASCII text. *)
Definition upper : string -> string := map_ascii ascii_upper.
Definition lower : string -> string := map_ascii ascii_lower.

(** [s[-n:]]. *)
Definition last_chars (n : nat) (s : string) : string :=
  String.substring (String.length s - n) n s.

(** ["".join(s.split(sep))]: [s] without the character [sep]. *)
Fixpoint without_char (sep : ascii) (s : string) : string :=
  match s with
  | EmptyString => EmptyString
  | String.String c s' =>
      if decide (c = sep) then without_char sep s' else String.String c (without_char sep s')
  end.

(** [str(role)] inside an f-string. *)
Definition str_of_role (r : option string) : string := default "None" r.

End Py.

Import Py.

#[global] Instance result_bind : MBind result := fun A B k m => Py.bind m k.
#[global] Instance result_ret : MRet result := fun A a => Ok a.

(** ** [dbus.types]: the types a register may declare *)

Module dbus.

(** [Other] stands for any type object outside the ten the decoder knows. *)
Inductive types : Type :=
| Boolean | Byte | Int16 | UInt16 | Int32 | UInt32 | Int64 | UInt64
| Double | String
| Other (name : string).

#[global] Instance types_eq_dec : EqDecision types.
Proof. solve_decision. Defined.

End dbus.

(** ** Configuration dicts *)

Module Config.

(** What a key of an [info] dict holds: nothing (the key is absent),
    [None], a value of another type than the one the program expects, or
    a value of that type. *)
Inductive entry (A : Type) : Type :=
| Missing
| IsNone
| BadType
| Val (a : A).
Arguments Missing {A}.
Arguments IsNone {A}.
Arguments BadType {A}.
Arguments Val {A} a.

Inductive shape : Type := SMissing | SNone | SBadType | SVal.

Definition shape_of {A : Type} (e : entry A) : shape :=
  match e with
  | Missing => SMissing
  | IsNone => SNone
  | BadType => SBadType
  | Val _ => SVal
  end.

(** [info[key]] where the program goes on to use the value as an [A]. *)
Definition get {A : Type} (key : string) (e : entry A) : result A :=
  match e with
  | Missing => Raise (KeyError key)
  | IsNone | BadType => Raise TypeError
  | Val a => Ok a
  end.

(** The published state of a role service, as an alarm callback reads it:
    [role_service[path]] is [None] where no item exists. *)
Definition published : Type := string -> pyval.

(** [float(v)] on what a role service holds. *)
Definition to_float (v : pyval) : result Q :=
  match as_number v with
  | Some q => Ok q
  | None => Raise TypeError
  end.

Record Props : Type := {
  props_def : option pyval;
  props_min : option pyval;
  props_max : option pyval
}.

Record Setting : Type := {
  setting_name : option string;
  setting_props : option Props
}.

Record Alarm : Type := {
  alarm_name : option string;
  alarm_update : option (published -> result Z)
}.

(** [if key not in info: raise ...; if info[key] is None: raise ...]. *)
Definition check_key (key : string) (s : shape) : result unit :=
  match s with
  | SMissing => Raise (ValueError (KeyMissing key))
  | SNone => Raise (ValueError (KeyIsNone key))
  | _ => Ok ()
  end.

(** [if not isinstance(info[key], int): raise ...] and the same test for
    [list], on a key already known to be present and not [None]. *)
Definition check_isinstance (err : string -> config_error) (key : string) (s : shape)
  : result unit :=
  match s with
  | SVal => Ok ()
  | _ => Raise (ValueError (err key))
  end.

Definition check_props_key (name : string) (key : string) (field : option pyval)
  : result unit :=
  match field with
  | Some _ => Ok ()
  | None => Raise (ValueError (SettingMissingKey key name))
  end.

(** Body of [for index, setting in enumerate(info['settings'])]. *)
Definition check_setting (index : nat) (setting : Setting) : result unit :=
  match setting_name setting with
  | None => Raise (ValueError (SettingMissingName index))
  | Some name =>
      match setting_props setting with
      | None => Raise (ValueError (SettingMissingProps name))
      | Some props =>
          _ ← check_props_key name "def" (props_def props);
          _ ← check_props_key name "min" (props_min props);
          check_props_key name "max" (props_max props)
      end
  end.

(** Body of [for index, alarm in enumerate(info['alarms'])]. *)
Definition check_alarm (index : nat) (alarm : Alarm) : result unit :=
  match alarm_name alarm with
  | None => Raise (ValueError (AlarmMissingName index))
  | Some name =>
      match alarm_update alarm with
      | None => Raise (ValueError (AlarmMissingKey "update" name))
      | Some _ => Ok ()
      end
  end.

(** [for index, x in enumerate(l): check(index, x)]. *)
Definition for_enumerate {A : Type} (check : nat -> A -> result unit) (l : list A)
  : result unit :=
  for_each (fun _ '(index, x) => check index x) (imap pair l) ().

(** [for key in keys: check(key, info[key])]. *)
Definition for_keys (check : string -> shape -> result unit) (info : string -> shape)
    (keys : list string) : result unit :=
  for_each (fun _ key => check key (info key)) keys ().

End Config.

Import Config.

(** ** [ble_role.py] *)

Module BleRole.

Record Info : Type := {
  name : entry string;
  dev_instance : entry Z;
  settings : entry (list Setting);
  alarms : entry (list Alarm)
}.

Definition shape_at (info : Info) (key : string) : shape :=
  if decide (key = "name") then shape_of (name info)
  else if decide (key = "dev_instance") then shape_of (dev_instance info)
  else if decide (key = "settings") then shape_of (settings info)
  else if decide (key = "alarms") then shape_of (alarms info)
  else SMissing.

(** [BleRole.check_configuration].  Its first statement formats
    [self.info['name']] into the log prefix, which needs the key. *)
Definition check_configuration (info : Info) : result unit :=
  _ ← match name info with
      | Missing => Raise (KeyError "name")
      | _ => Ok ()
      end;
  _ ← for_keys check_key (shape_at info) ["name"; "dev_instance"; "settings"; "alarms"];
  _ ← for_keys (check_isinstance NotAnInteger) (shape_at info) ["dev_instance"];
  _ ← for_keys (check_isinstance NotAList) (shape_at info) ["settings"; "alarms"];
  settings ← Config.get "settings" (settings info);
  _ ← for_enumerate check_setting settings;
  alarms ← Config.get "alarms" (alarms info);
  for_enumerate check_alarm alarms.

(** [BleRole._ROLE_INSTANCE]: the registered roles, by name. *)
Definition registry : Type := gmap string Info.

End BleRole.

(** ** [ble_role_tank.py] *)

Module BleRoleTank.

Definition percent_setting (name : string) (def max : Z) : Setting :=
  {| setting_name := Some name;
     setting_props := Some {| props_def := Some (VNum (PInt def));
                              props_min := Some (VNum (PInt 0));
                              props_max := Some (VNum (PInt max)) |} |}.

(** [get_alarm_high_state] and [get_alarm_low_state]: [side] is ["High"] or
    ["Low"], [raised] the comparison of the level with the threshold. *)
Definition get_alarm_state (side : string) (raised : Q -> Q -> bool) (role_service : published)
  : result Z :=
  if truthy (role_service ("/Alarms/" +:+ side +:+ "/Enable")) then
    let alarm_state := truthy (role_service ("/Alarms/" +:+ side +:+ "/State")) in
    let alarm_threshold :=
      role_service ("/Alarms/" +:+ side +:+ "/" +:+ (if alarm_state then "Restore" else "Active")) in
    tank_level ← to_float (role_service "Level");
    threshold ← to_float alarm_threshold;
    Ok (if raised tank_level threshold then 1 else 0)
  else Ok 0.

Definition get_alarm_high_state : published -> result Z :=
  get_alarm_state "High" (fun level threshold => negb (Qle_bool level threshold)).

Definition get_alarm_low_state : published -> result Z :=
  get_alarm_state "Low" (fun level threshold => negb (Qle_bool threshold level)).

(** The [info] that [__init__] builds. *)
Definition info : BleRole.Info :=
  {| BleRole.name := Val "tank";
     BleRole.dev_instance := Val 20;
     BleRole.settings :=
       Val [percent_setting "/Alarms/High/Enable" 0 1;
            percent_setting "/Alarms/High/Active" 90 100;
            percent_setting "/Alarms/High/Restore" 80 100;
            percent_setting "/Alarms/Low/Enable" 0 1;
            percent_setting "/Alarms/Low/Active" 10 100;
            percent_setting "/Alarms/Low/Restore" 15 100];
     BleRole.alarms :=
       Val [ {| alarm_name := Some "/Alarms/High/State";
                alarm_update := Some get_alarm_high_state |};
             {| alarm_name := Some "/Alarms/Low/State";
                alarm_update := Some get_alarm_low_state |} ] |}.

End BleRoleTank.

(** ** [ble_device.py] *)

Module BleDevice.

(** A role name as it appears in a [roles] list; [None] is Python's
    [None], the "ignore" marker. *)
Abbreviation role := (option string).

(** One entry of [info['regs']]. *)
Record Reg : Type := {
  reg_name : option string;
  reg_type : option dbus.types;
  reg_offset : option N;
  reg_bits : option N;
  reg_mask : option Z;
  reg_shift : option N;
  reg_scale : option pynum;
  reg_bias : option pynum;
  reg_flags : option (list string);
  reg_xlate : option (pyval -> pyval);
  reg_inval : option pyval;
  reg_roles : option (list role)
}.

(** [{'name': name, 'type': type, 'offset': offset}]. *)
Definition reg (name : string) (type : dbus.types) (offset : N) : Reg :=
  {| reg_name := Some name; reg_type := Some type; reg_offset := Some offset;
     reg_bits := None; reg_mask := None; reg_shift := None; reg_scale := None;
     reg_bias := None; reg_flags := None; reg_xlate := None; reg_inval := None;
     reg_roles := None |}.

Definition set_type (t : dbus.types) (r : Reg) : Reg :=
  {| reg_name := reg_name r; reg_type := Some t; reg_offset := reg_offset r;
     reg_bits := reg_bits r; reg_mask := reg_mask r; reg_shift := reg_shift r;
     reg_scale := reg_scale r; reg_bias := reg_bias r; reg_flags := reg_flags r;
     reg_xlate := reg_xlate r; reg_inval := reg_inval r; reg_roles := reg_roles r |}.

Definition set_bits (bits : N) (r : Reg) : Reg :=
  {| reg_name := reg_name r; reg_type := reg_type r; reg_offset := reg_offset r;
     reg_bits := Some bits; reg_mask := reg_mask r; reg_shift := reg_shift r;
     reg_scale := reg_scale r; reg_bias := reg_bias r; reg_flags := reg_flags r;
     reg_xlate := reg_xlate r; reg_inval := reg_inval r; reg_roles := reg_roles r |}.

Definition set_mask (mask : Z) (r : Reg) : Reg :=
  {| reg_name := reg_name r; reg_type := reg_type r; reg_offset := reg_offset r;
     reg_bits := reg_bits r; reg_mask := Some mask; reg_shift := reg_shift r;
     reg_scale := reg_scale r; reg_bias := reg_bias r; reg_flags := reg_flags r;
     reg_xlate := reg_xlate r; reg_inval := reg_inval r; reg_roles := reg_roles r |}.

Definition set_shift (shift : N) (r : Reg) : Reg :=
  {| reg_name := reg_name r; reg_type := reg_type r; reg_offset := reg_offset r;
     reg_bits := reg_bits r; reg_mask := reg_mask r; reg_shift := Some shift;
     reg_scale := reg_scale r; reg_bias := reg_bias r; reg_flags := reg_flags r;
     reg_xlate := reg_xlate r; reg_inval := reg_inval r; reg_roles := reg_roles r |}.

Definition set_scale (scale : pynum) (r : Reg) : Reg :=
  {| reg_name := reg_name r; reg_type := reg_type r; reg_offset := reg_offset r;
     reg_bits := reg_bits r; reg_mask := reg_mask r; reg_shift := reg_shift r;
     reg_scale := Some scale; reg_bias := reg_bias r; reg_flags := reg_flags r;
     reg_xlate := reg_xlate r; reg_inval := reg_inval r; reg_roles := reg_roles r |}.

Definition set_bias (bias : pynum) (r : Reg) : Reg :=
  {| reg_name := reg_name r; reg_type := reg_type r; reg_offset := reg_offset r;
     reg_bits := reg_bits r; reg_mask := reg_mask r; reg_shift := reg_shift r;
     reg_scale := reg_scale r; reg_bias := Some bias; reg_flags := reg_flags r;
     reg_xlate := reg_xlate r; reg_inval := reg_inval r; reg_roles := reg_roles r |}.

Definition set_flags (flags : list string) (r : Reg) : Reg :=
  {| reg_name := reg_name r; reg_type := reg_type r; reg_offset := reg_offset r;
     reg_bits := reg_bits r; reg_mask := reg_mask r; reg_shift := reg_shift r;
     reg_scale := reg_scale r; reg_bias := reg_bias r; reg_flags := Some flags;
     reg_xlate := reg_xlate r; reg_inval := reg_inval r; reg_roles := reg_roles r |}.

Definition set_xlate (xlate : pyval -> pyval) (r : Reg) : Reg :=
  {| reg_name := reg_name r; reg_type := reg_type r; reg_offset := reg_offset r;
     reg_bits := reg_bits r; reg_mask := reg_mask r; reg_shift := reg_shift r;
     reg_scale := reg_scale r; reg_bias := reg_bias r; reg_flags := reg_flags r;
     reg_xlate := Some xlate; reg_inval := reg_inval r; reg_roles := reg_roles r |}.


Definition set_roles (roles : list role) (r : Reg) : Reg :=
  {| reg_name := reg_name r; reg_type := reg_type r; reg_offset := reg_offset r;
     reg_bits := reg_bits r; reg_mask := reg_mask r; reg_shift := reg_shift r;
     reg_scale := reg_scale r; reg_bias := reg_bias r; reg_flags := reg_flags r;
     reg_xlate := reg_xlate r; reg_inval := reg_inval r; reg_roles := Some roles |}.

Definition _ALLOWED_TYPES : list dbus.types :=
  [dbus.Boolean; dbus.Byte; dbus.Int16; dbus.UInt16; dbus.Int32; dbus.UInt32;
   dbus.Int64; dbus.UInt64; dbus.Double; dbus.String].

Definition _SIGNED_TYPES : list dbus.types := [dbus.Int16; dbus.Int32; dbus.Int64].

(** The [info] dict of a device. *)
Record Info : Type := {
  dev_mac : string;
  manufacturer_id : entry Z;
  product_id : entry Z;
  product_name : entry string;
  DeviceName : entry string;
  dev_prefix : entry string;
  dev_id : entry string;
  roles : entry (list role);
  regs : entry (list Reg);
  settings : entry (list Setting);
  alarms : entry (list Alarm)
}.

(** [load_str]. *)
Definition load_str (reg : Reg) (manufacturer_data : list byte) : result pyval :=
  offset ← getitem "offset" (reg_offset reg);
  bits ← getitem "bits" (reg_bits reg);
  let size := N.shiftr (bits + 7) 3 in
  if Z.of_N size >? Z.of_nat (length manufacturer_data) - Z.of_N offset then Ok VNone
  else
    match utf8_decode (slice manufacturer_data offset size) with
    | Some s => Ok (VStr s)
    | None => Raise UnicodeDecodeError
    end.

(** The [match _type] of [load_int] that supplies a bit length when the
    register gives none; [None] is its [case _: return None]. *)
Definition default_bits (_type : dbus.types) : option N :=
  match _type with
  | dbus.Boolean | dbus.Byte => Some 8%N
  | dbus.Int16 | dbus.UInt16 => Some 16%N
  | dbus.Int32 | dbus.UInt32 => Some 32%N
  | dbus.Int64 | dbus.UInt64 => Some 64%N
  | _ => None
  end.

(** [load_int]. *)
Definition load_int (reg : Reg) (manufacturer_data : list byte) : result pyval :=
  offset ← getitem "offset" (reg_offset reg);
  let flags := default [] (reg_flags reg) in
  let shift := reg_shift reg in
  _type ← getitem "type" (reg_type reg);
  (* Get data length *)
  match (match reg_bits reg with Some bits => Some bits | None => default_bits _type end) with
  | None => Ok VNone
  | Some bits =>
      (* Check there is enough data *)
      let size := N.shiftr (bits + default 0%N shift + 7) 3 in
      if Z.of_N size >? Z.of_nat (length manufacturer_data) - Z.of_N offset then Ok VNone
      else
        (* Get raw value *)
        let value :=
          from_bytes (slice manufacturer_data offset size)
            (if bool_decide ("REG_FLAG_BIG_ENDIAN" ∈ flags) then Big else Little)
            (bool_decide (_type ∈ _SIGNED_TYPES)) in
        (* Applying mask, if any *)
        let value :=
          match reg_mask reg with
          | Some mask => Z.land value mask
          | None => value
          end in
        (* Applying shift and triming on bits size *)
        let value :=
          match shift with
          | Some shift => Z.land (Z.shiftr value (Z.of_N shift)) (Z.shiftl 1 (Z.of_N bits) - 1)
          | None => value
          end in
        (* Post actions *)
        let value := PInt value in
        let value :=
          match reg_scale reg with
          | Some scale => if num_truthy scale then truediv value scale else value
          | None => value
          end in
        let value :=
          match reg_bias reg with
          | Some bias => if num_truthy bias then add value bias else value
          | None => value
          end in
        let value := VNum value in
        let value :=
          match reg_xlate reg with
          | Some xlate => xlate value
          | None => value
          end in
        let value :=
          if bool_decide ("REG_FLAG_INVALID" ∈ flags) && Py.eq value (default VNone (reg_inval reg))
          then VNone
          else value in
        Ok value
  end.

(** The dict [values]: a value map per role. *)
Abbreviation sensor_data := (gmap (option string) (gmap string pyval)).

(** [values[role][reg['name']] = value]. *)
Definition store (reg : Reg) (value : pyval) (values : sensor_data) (r : role)
  : result sensor_data :=
  match values !! r with
  | None => Raise (KeyError (default "None" r))
  | Some role_values =>
      name ← getitem "name" (reg_name reg);
      Ok (<[r := <[name := value]> role_values]> values)
  end.

(** The [match reg['type']] of [_parse_manufacturer_data]. *)
Definition load (reg : Reg) (manufacturer_data : list byte) : result pyval :=
  _type ← getitem "type" (reg_type reg);
  match _type with
  | dbus.Boolean =>
      value ← load_int reg manufacturer_data;
      Ok (VBool (truthy value))
  | dbus.Byte | dbus.Int16 | dbus.UInt16 | dbus.Int32 | dbus.UInt32 | dbus.Int64
  | dbus.UInt64 | dbus.Double =>
      load_int reg manufacturer_data
  | dbus.String => load_str reg manufacturer_data
  | dbus.Other _ => Ok VNone
  end.

(** Body of [for reg in self.info['regs']]. *)
Definition parse_reg (info_roles : list role) (manufacturer_data : list byte)
    (values : sensor_data) (reg : Reg) : result sensor_data :=
  value ← load reg manufacturer_data;
  match value with
  | VNone => Ok values
  | _ =>
      match reg_roles reg with
      | Some roles =>
          if bool_decide (roles ≠ []) && bool_decide (None ∈ roles) then Ok values
          else for_each (store reg value) roles values
      | None => for_each (store reg value) info_roles values
      end
  end.

(** [_parse_manufacturer_data]. *)
Definition _parse_manufacturer_data (info : Info) (manufacturer_data : list byte)
  : result sensor_data :=
  info_roles ← Config.get "roles" (roles info);
  let values := foldl (fun values r => <[r := ∅]> values) ∅ info_roles in
  regs ← Config.get "regs" (regs info);
  for_each (parse_reg info_roles manufacturer_data) regs values.

Definition shape_at (info : Info) (key : string) : shape :=
  if decide (key = "manufacturer_id") then shape_of (manufacturer_id info)
  else if decide (key = "product_id") then shape_of (product_id info)
  else if decide (key = "product_name") then shape_of (product_name info)
  else if decide (key = "DeviceName") then shape_of (DeviceName info)
  else if decide (key = "dev_prefix") then shape_of (dev_prefix info)
  else if decide (key = "roles") then shape_of (roles info)
  else if decide (key = "regs") then shape_of (regs info)
  else if decide (key = "settings") then shape_of (settings info)
  else if decide (key = "alarms") then shape_of (alarms info)
  else SMissing.

(** [if self.info[key].__len__() < 1: raise ...]. *)
Definition check_not_empty {A : Type} (key : string) (l : list A) : result unit :=
  if (length l <? 1)%nat then Raise (ValueError (EmptyList key)) else Ok ().

(** Body of [for role in self.info['roles']]. *)
Definition check_role (_ROLE_INSTANCE : BleRole.registry) (err : string -> config_error)
    (r : role) : result unit :=
  match r with
  | None => Ok ()
  | Some role_name =>
      match _ROLE_INSTANCE !! role_name with
      | Some _ => Ok ()
      | None => Raise (ValueError (err role_name))
      end
  end.

Definition check_reg_key (name : string) (key : string) {A : Type} (field : option A)
  : result unit :=
  match field with
  | Some _ => Ok ()
  | None => Raise (ValueError (RegMissingKey key name))
  end.

(** Body of [for index, reg in enumerate(self.info['regs'])]. *)
Definition check_reg (_ROLE_INSTANCE : BleRole.registry) (index : nat) (reg : Reg)
  : result unit :=
  match reg_name reg with
  | None => Raise (ValueError (RegMissingName index))
  | Some name =>
      _ ← check_reg_key name "type" (reg_type reg);
      _ ← check_reg_key name "offset" (reg_offset reg);
      reg_type ← getitem "type" (reg_type reg);
      _ ← (if bool_decide (reg_type ∈ _ALLOWED_TYPES) then Ok ()
           else Raise (ValueError (RegTypeNotAllowed name)));
      _ ← (if bool_decide (reg_type = dbus.String) then
             match reg_bits reg with
             | None => Raise (ValueError (RegMissingBits name))
             | Some bits =>
                 if negb (N.eqb (bits mod 8) 0) then Raise (ValueError (RegBitsNotMultipleOf8 name))
                 else Ok ()
             end
           else Ok ());
      match reg_roles reg with
      | Some roles =>
          for_each (fun _ r => check_role _ROLE_INSTANCE (fun r => RegUnknownRole r name) r)
            roles ()
      | None => Ok ()
      end
  end.

(** [_check_configuration]. *)
Definition _check_configuration (_ROLE_INSTANCE : BleRole.registry) (info : Info)
  : result unit :=
  _ ← for_keys check_key (shape_at info)
        ["manufacturer_id"; "product_id"; "product_name"; "DeviceName"; "dev_prefix";
         "roles"; "regs"; "settings"; "alarms"];
  _ ← for_keys (check_isinstance NotAnInteger) (shape_at info)
        ["manufacturer_id"; "product_id"];
  _ ← for_keys (check_isinstance NotAList) (shape_at info)
        ["roles"; "regs"; "settings"; "alarms"];
  roles ← Config.get "roles" (roles info);
  _ ← check_not_empty "roles" roles;
  regs ← Config.get "regs" (regs info);
  _ ← check_not_empty "regs" regs;
  _ ← for_each (fun _ r => check_role _ROLE_INSTANCE UnknownRole r) roles ();
  _ ← for_enumerate (check_reg _ROLE_INSTANCE) regs;
  settings ← Config.get "settings" (settings info);
  _ ← for_enumerate check_setting settings;
  alarms ← Config.get "alarms" (alarms info);
  for_enumerate check_alarm alarms.

(** A device class: its [MANUFACTURER_ID] and its [configure], which
    updates the [info] of the instance from the first payload.  The
    classes of the repository leave [update_data] empty. *)
Record Class : Type := {
  MANUFACTURER_ID : Z;
  configure : Info -> list byte -> result Info
}.

(** A device object: its class, its [info] and the keys of
    [_role_services], in the order the services were created. *)
Record Instance : Type := {
  class : Class;
  info : Info;
  _role_services : list string
}.

(** [__init__]: the [info] a new device starts from.  [dev_name] is the
    advertised name, which may be [None]. *)
Definition __init__ (cls : Class) (dev_mac : string) (dev_name : option string) : Instance :=
  {| class := cls;
     info := {| dev_mac := dev_mac;
                manufacturer_id := Missing;
                product_id := Val 0;
                product_name := IsNone;
                DeviceName := from_option Val IsNone dev_name;
                dev_prefix := IsNone;
                dev_id := Missing;
                roles := Val [];
                regs := Val [];
                settings := Val [];
                alarms := Val [] |};
     _role_services := [] |}.

(** [_load_configuration]. *)
Definition _load_configuration (cls : Class) (info : Info) : result Info :=
  prefix ← Config.get "dev_prefix" (dev_prefix info);
  device_name ← Config.get "DeviceName" (DeviceName info);
  Ok {| dev_mac := dev_mac info;
        manufacturer_id := Val (MANUFACTURER_ID cls);
        product_id := product_id info;
        product_name := product_name info;
        DeviceName := Val (device_name +:+ " " +:+ upper (last_chars 4 (dev_mac info)));
        dev_prefix := dev_prefix info;
        dev_id := Val (prefix +:+ "_" +:+ dev_mac info);
        roles := roles info;
        regs := regs info;
        settings := settings info;
        alarms := alarms info |}.

(** The loop of [init] that creates one role service per role of the
    device; [DbusRoleService] reads the name of the role object, which
    [BleRole.get_instance] does not supply for [None]. *)
Definition create_role_service (_ROLE_INSTANCE : BleRole.registry)
    (services : list string) (r : role) : result (list string) :=
  match r with
  | Some role_name =>
      match _ROLE_INSTANCE !! role_name with
      | Some _ => Ok (if bool_decide (role_name ∈ services) then services
                      else services ++ [role_name])
      | None => Raise AttributeError
      end
  | None => Raise AttributeError
  end.

(** [init]. *)
Definition init (_ROLE_INSTANCE : BleRole.registry) (self : Instance) : result Instance :=
  info' ← _load_configuration (class self) (info self);
  _ ← _check_configuration _ROLE_INSTANCE info';
  roles ← Config.get "roles" (roles info');
  services ← for_each (create_role_service _ROLE_INSTANCE) roles (_role_services self);
  Ok {| class := class self; info := info'; _role_services := services |}.

(** [DbusBleService]: the truth value of the item at a path. *)
Definition DbusBleService : Type := string -> bool.

(** [DbusBleService.is_device_enabled]. *)
Definition is_device_enabled (ble : DbusBleService) (device_info : Info) : result bool :=
  roles ← Config.get "roles" (roles device_info);
  match roles with
  | [] => Ok false
  | _ =>
      dev_id ← Config.get "dev_id" (dev_id device_info);
      Ok (existsb
            (fun r => ble ("/Devices/" +:+ dev_id +:+ "_" +:+ str_of_role r +:+ "/Enabled"))
            roles)
  end.

(** What [handle_data] writes to a role service: the role and its values. *)
Abbreviation publication := (string * gmap string pyval)%type.

(** Body of [for role_service in self._role_services.values()]: the
    [update_data] hooks of the role and of the device are empty. *)
Definition publish_role (parsed : sensor_data) (out : list publication) (role_name : string)
  : result (list publication) :=
  match parsed !! Some role_name with
  | None => Raise (KeyError role_name)
  | Some role_data => Ok (out ++ [(role_name, role_data)])
  end.

(** [handle_data]: nothing when the device is not enabled, else what is
    written to each role service. *)
Definition handle_data (ble : DbusBleService) (self : Instance)
    (manufacturer_data : list byte) : result (list publication) :=
  enabled ← is_device_enabled ble (info self);
  if negb enabled then Ok []
  else
    parsed ← _parse_manufacturer_data (info self) manufacturer_data;
    for_each (publish_role parsed) (_role_services self) [].

End BleDevice.

(** ** [ble_device_teltonika.py] *)

Module BleDeviceTeltonika.

Import BleDevice.

Definition MANUFACTURER_ID : Z := 0x089A.

(** [_byteToSignedInt]: [byte if byte < 128 else byte - 256]. *)
Definition _byteToSignedInt (byte : pyval) : pyval :=
  match byte with
  | VNum n => if Qle_bool 128 (num_Q n) then VNum (add n (PInt (-256))) else byte
  | _ => byte
  end.

(** [_get_low_battery_state]: [int((role_service['LowBattery'] or 0) >= 1)]. *)
Definition _get_low_battery_state (role_service : published) : result Z :=
  let low := role_service "LowBattery" in
  let low := if truthy low then low else VNum (PInt 0) in
  match as_number low with
  | Some q => Ok (if Qle_bool 1 q then 1 else 0)
  | None => Raise TypeError
  end.

(** The three registers every table starts with. *)
Definition Version : Reg := set_roles [None] (reg "Version" dbus.Byte 0).
Definition EyeFlags : Reg := set_roles [None] (reg "EyeFlags" dbus.Byte 1).
Definition LowBattery : Reg := set_bits 1 (set_shift 6 (reg "LowBattery" dbus.Boolean 1)).

(** The register [_compute_regs] decodes to test one bit of the flag byte. *)
Definition Flag (shift : N) : Reg := set_bits 1 (set_shift shift (reg "Flag" dbus.Boolean 1)).

Definition InputState : Reg :=
  set_roles [Some "digitalinput"] (set_bits 1 (set_shift 3 (reg "InputState" dbus.Boolean 1))).

Definition Temperature (offset : N) : Reg :=
  set_roles [Some "temperature"]
    (set_flags ["REG_FLAG_BIG_ENDIAN"] (set_scale (PInt 100) (reg "Temperature" dbus.Int16 offset))).

Definition Humidity (offset : N) : Reg :=
  set_roles [Some "temperature"]
    (set_flags ["REG_FLAG_BIG_ENDIAN"] (reg "Humidity" dbus.Byte offset)).

Definition MovementState (offset : N) : Reg :=
  set_roles [Some "movement"]
    (set_bits 1 (set_shift 7 (reg "MovementState" dbus.Boolean offset))).

Definition MovementCount (offset : N) : Reg :=
  set_roles [Some "movement"]
    (set_flags ["REG_FLAG_BIG_ENDIAN"] (set_mask 0x7FFF (reg "MovementCount" dbus.UInt16 offset))).

Definition Pitch (offset : N) : Reg :=
  set_roles [Some "movement"] (set_xlate _byteToSignedInt (reg "Pitch" dbus.Byte offset)).

Definition Roll : Reg :=
  set_roles [Some "movement"] (set_flags ["REG_FLAG_BIG_ENDIAN"] (reg "Roll" dbus.Int16 8)).

(** [scale] is the float [1/10]. *)
Definition BatteryVoltage (offset : N) : Reg :=
  set_bias (PInt 2000) (set_scale (PFloat (1 # 10)) (reg "BatteryVoltage" dbus.Byte offset)).

(** The state [_compute_regs] threads through its sections: the list
    [info['regs']], the list [info['roles']] and the byte cursor. *)
Record cursor : Type := {
  cur_regs : list Reg;
  cur_roles : list role;
  cur_offset : N
}.

(** One [if flag: ...] section: the registers it appends, the role it
    appends if any, the bytes it consumes. *)
Definition section (flag : pyval) (new_regs : list Reg) (new_role : list role) (width : N)
    (c : cursor) : cursor :=
  if truthy flag
  then {| cur_regs := cur_regs c ++ new_regs;
          cur_roles := cur_roles c ++ new_role;
          cur_offset := (cur_offset c + width)%N |}
  else c.

Definition set_table (regs : list Reg) (roles : list role) (info : Info) : Info :=
  {| dev_mac := dev_mac info;
     manufacturer_id := manufacturer_id info;
     product_id := product_id info;
     product_name := product_name info;
     DeviceName := DeviceName info;
     dev_prefix := dev_prefix info;
     dev_id := dev_id info;
     roles := Val roles;
     regs := Val regs;
     settings := settings info;
     alarms := alarms info |}.

(** [_compute_regs]. *)
Definition _compute_regs (info : Info) (manufacturer_data : list byte) : result Info :=
  let c := {| cur_regs := [Version; EyeFlags; LowBattery]; cur_roles := []; cur_offset := 2 |} in
  (* Compute regs from flags *)
  flag_mag ← load_int (Flag 2) manufacturer_data;
  let c := section flag_mag [InputState] [Some "digitalinput"] 0 c in
  flag_temp ← load_int (Flag 0) manufacturer_data;
  let c := section flag_temp [Temperature (cur_offset c)] [Some "temperature"] 2 c in
  flag_humid ← load_int (Flag 1) manufacturer_data;
  let c := section flag_humid [Humidity (cur_offset c)] [Some "temperature"] 1 c in
  flag_mov ← load_int (Flag 4) manufacturer_data;
  let c := section flag_mov [MovementState (cur_offset c); MovementCount (cur_offset c)]
             [Some "movement"] 2 c in
  flag_angle ← load_int (Flag 5) manufacturer_data;
  let c := section flag_angle [Pitch (cur_offset c); Roll] [Some "movement"] 3 c in
  flag_bat ← load_int (Flag 7) manufacturer_data;
  let c := section flag_bat [BatteryVoltage (cur_offset c)] [] 0 c in
  Ok (set_table (cur_regs c) (list_set (cur_roles c)) info).

(** [configure]. *)
Definition configure (info : Info) (manufacturer_data : list byte) : result Info :=
  let info :=
    {| dev_mac := dev_mac info;
       manufacturer_id := Val MANUFACTURER_ID;
       product_id := Val 0x3042;
       product_name := Val "TeltonikaEye";
       DeviceName := DeviceName info;
       dev_prefix := Val "teltonika";
       dev_id := dev_id info;
       roles := roles info;
       regs := regs info;
       settings := settings info;
       alarms := Val [ {| alarm_name := Some "/Alarms/LowBattery";
                          alarm_update := Some _get_low_battery_state |} ] |} in
  _compute_regs info manufacturer_data.

Definition cls : BleDevice.Class :=
  {| BleDevice.MANUFACTURER_ID := MANUFACTURER_ID; BleDevice.configure := configure |}.

End BleDeviceTeltonika.

(** ** [dbus_ble_sensors.py]: the scan callback *)

Module DbusBleSensors.

(** What the callback reads but does not change: the device classes by
    manufacturer id, the registered roles, the enable switches. *)
Record World : Type := {
  DEVICE_CLASSES : gmap Z BleDevice.Class;
  _ROLE_INSTANCE : BleRole.registry;
  ble_service : BleDevice.DbusBleService
}.

(** The two fields of [DbusBleSensors] the callback updates. *)
Record State : Type := {
  _known_mac : gmap string BleDevice.Instance;
  _ignored_mac : list string
}.

Definition ignore (dev_mac : string) (st : State) : State :=
  {| _known_mac := _known_mac st; _ignored_mac := _ignored_mac st ++ [dev_mac] |}.

Definition remember (dev_mac : string) (dev : BleDevice.Instance) (st : State) : State :=
  {| _known_mac := <[dev_mac := dev]> (_known_mac st); _ignored_mac := _ignored_mac st |}.

(** What one callback did: it returned early, or it went through the
    payloads and wrote what each decode produced. *)
Inductive outcome : Type :=
| Ignored
| Handled (written : list (list BleDevice.publication)).

(** The [for man_id, man_data in ...items()] loop.  An exception leaves
    the state as the loop had it when it was raised. *)
Fixpoint scan_items (w : World) (dev_mac : string) (dev_name : option string)
    (items : list (Z * list byte)) (written : list (list BleDevice.publication)) (st : State)
  : State * result outcome :=
  match items with
  | [] => (st, Ok (Handled written))
  | (man_id, man_data) :: items' =>
      let handle (dev_instance : BleDevice.Instance) (st : State) :=
        match BleDevice.handle_data (ble_service w) dev_instance man_data with
        | Raise e => (st, Raise e)
        | Ok out => scan_items w dev_mac dev_name items' (written ++ [out]) st
        end in
      match _known_mac st !! dev_mac with
      | None =>
          (* First time device initialization *)
          match DEVICE_CLASSES w !! man_id with
          | None => (ignore dev_mac st, Ok Ignored)
          | Some device_class =>
              let dev_instance := BleDevice.__init__ device_class dev_mac dev_name in
              match
                info' ← BleDevice.configure device_class (BleDevice.info dev_instance) man_data;
                BleDevice.init (_ROLE_INSTANCE w)
                  {| BleDevice.class := device_class; BleDevice.info := info';
                     BleDevice._role_services := BleDevice._role_services dev_instance |}
              with
              | Raise e => (st, Raise e)
              | Ok dev_instance => handle dev_instance (remember dev_mac dev_instance st)
              end
          end
      | Some dev_instance => handle dev_instance st
      end
  end.

(** [_scan_callback(device, advertisement_data)], with [address] and
    [dev_name] the address and name of [device] and [manufacturer_data]
    the dict of the advertisement, as its list of items. *)
Definition _scan_callback (w : World) (address : string) (dev_name : option string)
    (manufacturer_data : option (list (Z * list byte))) (st : State)
  : State * result outcome :=
  let dev_mac := lower (without_char ":" address) in
  if bool_decide (dev_mac ∈ _ignored_mac st) then (st, Ok Ignored)
  else
    match manufacturer_data with
    | None => (ignore dev_mac st, Ok Ignored)
    | Some items =>
        if (length items <? 1)%nat then (ignore dev_mac st, Ok Ignored)
        else scan_items w dev_mac dev_name items [] st
    end.

End DbusBleSensors.

(** ** The stages of [load_int], one definition each

    [load_int] is written above as the source has it, one rebinding of
    [value] after the other.  The definitions below name each step, so that
    the properties can speak of "the value before scale and bias" or of
    "the other order". *)

Module Pipeline.

Import BleDevice.

(** The bit length [load_int] works with: [reg['bits']], else the default
    of the type, else nothing. *)
Definition effective_bits (r : Reg) (t : dbus.types) : option N :=
  match reg_bits r with
  | Some bits => Some bits
  | None => default_bits t
  end.

(** Number of bytes read: [(bits + (shift or 0) + 7) >> 3]. *)
Definition span_size (r : Reg) (bits : N) : N :=
  N.shiftr (bits + default 0%N (reg_shift r) + 7) 3.

(** The payload holds [size] bytes from [offset] on. *)
Definition fits (data : list byte) (offset size : N) : Prop :=
  Z.of_N size <= Z.of_nat (length data) - Z.of_N offset.

#[global] Instance fits_dec (data : list byte) (offset size : N) :
  Decision (fits data offset size).
Proof. unfold fits. apply _. Defined.

Definition flags (r : Reg) : list string := default [] (reg_flags r).

Definition order (r : Reg) : byteorder :=
  if bool_decide ("REG_FLAG_BIG_ENDIAN" ∈ flags r) then Big else Little.

Definition signed (t : dbus.types) : bool := bool_decide (t ∈ _SIGNED_TYPES).

(** The integer read from the span of the register. *)
Definition raw_value (r : Reg) (t : dbus.types) (data : list byte) (offset bits : N) : Z :=
  from_bytes (slice data offset (span_size r bits)) (order r) (signed t).

Definition apply_mask (r : Reg) (value : Z) : Z :=
  match reg_mask r with
  | Some mask => Z.land value mask
  | None => value
  end.

Definition apply_shift (r : Reg) (bits : N) (value : Z) : Z :=
  match reg_shift r with
  | Some shift => Z.land (Z.shiftr value (Z.of_N shift)) (Z.shiftl 1 (Z.of_N bits) - 1)
  | None => value
  end.

Definition apply_scale (r : Reg) (value : pynum) : pynum :=
  match reg_scale r with
  | Some scale => if num_truthy scale then truediv value scale else value
  | None => value
  end.

Definition apply_bias (r : Reg) (value : pynum) : pynum :=
  match reg_bias r with
  | Some bias => if num_truthy bias then add value bias else value
  | None => value
  end.

Definition apply_xlate (r : Reg) (value : pyval) : pyval :=
  match reg_xlate r with
  | Some xlate => xlate value
  | None => value
  end.

Definition invalidate_check (r : Reg) (value : pyval) : pyval :=
  if bool_decide ("REG_FLAG_INVALID" ∈ flags r) && Py.eq value (default VNone (reg_inval r))
  then VNone
  else value.

(** The two orders of the integer steps. *)
Definition mask_then_shift (r : Reg) (bits : N) (raw : Z) : Z :=
  apply_shift r bits (apply_mask r raw).

Definition shift_then_mask (r : Reg) (bits : N) (raw : Z) : Z :=
  apply_mask r (apply_shift r bits raw).

(** Scale, then bias, then xlate, on the integer the first steps left. *)
Definition transformed (r : Reg) (value : Z) : pyval :=
  apply_xlate r (VNum (apply_bias r (apply_scale r (PInt value)))).

(** A decoder with the front and the post actions of [load_int] and the
    integer steps given by [integer_steps]. *)
Definition decode_with (integer_steps : Reg -> N -> Z -> Z) (r : Reg) (data : list byte)
  : result pyval :=
  offset ← getitem "offset" (reg_offset r);
  t ← getitem "type" (reg_type r);
  match effective_bits r t with
  | None => Ok VNone
  | Some bits =>
      if Z.of_N (span_size r bits) >? Z.of_nat (length data) - Z.of_N offset then Ok VNone
      else
        Ok (invalidate_check r
              (transformed r (integer_steps r bits (raw_value r t data offset bits))))
  end.

(** The register is valid for the payload as far as [load_int] checks:
    it has a type, an offset and a bit length, and its span lies inside
    the payload. *)
Record readable (r : Reg) (data : list byte) (t : dbus.types) (offset bits : N) : Prop := {
  readable_type : reg_type r = Some t;
  readable_offset : reg_offset r = Some offset;
  readable_bits : effective_bits r t = Some bits;
  readable_fits : fits data offset (span_size r bits)
}.

(** The span of the register reaches past the end of the payload. *)
Definition truncated (data : list byte) (offset size : N) : Prop :=
  Z.of_N size > Z.of_nat (length data) - Z.of_N offset.

#[global] Instance truncated_dec (data : list byte) (offset size : N) :
  Decision (truncated data offset size).
Proof. unfold truncated. apply _. Defined.

(** Number of bytes [load_str] reads: [(bits + 7) >> 3]. *)
Definition string_size (bits : N) : N := N.shiftr (bits + 7) 3.

(** The number of bytes a register of type [t] needs, when it has one. *)
Definition required_span (r : Reg) (t : dbus.types) : option N :=
  match t with
  | dbus.String => string_size <$> reg_bits r
  | dbus.Other _ => None
  | _ => span_size r <$> effective_bits r t
  end.


End Pipeline.

Import BleDevice Pipeline.

(** ** Words for the properties of the validators *)

Module Validation.

(** The only exceptions [m] can raise are configuration errors. *)
Definition config_errors_only {A : Type} (m : result A) : Prop :=
  forall e, m = Raise e -> exists why, e = ValueError why.

(** The key [regs] is absent, [None] or an empty list. *)
Definition no_regs (info : Info) : Prop :=
  regs info = Missing \/ regs info = IsNone \/ regs info = Val [].

(** An alarm with a name and without the key [update]. *)
Definition no_update (a : Alarm) : Prop :=
  is_Some (alarm_name a) /\ alarm_update a = None.

(** The key [alarms] holds a list with such an alarm. *)
Definition alarm_without_update (alarms : entry (list Alarm)) : Prop :=
  exists (listed : list Alarm) (a : Alarm), alarms = Val listed /\ a ∈ listed /\ no_update a.

(** The role names a register lists are roles of the device. *)
Definition roles_declared (info_roles : list (option string)) (r : Reg) : Prop :=
  forall (listed : list (option string)) (role_name : string),
    reg_roles r = Some listed -> Some role_name ∈ listed -> Some role_name ∈ info_roles.

End Validation.

(** ** Registers and payloads used as concrete inputs *)

Module Inputs.

(** A 4-bit field at bits 2 to 5 of byte 0, masked with 0x3C before the
    shift. *)
Definition middle_bits : Reg :=
  set_bits 4 (set_shift 2 (set_mask 0x3C (reg "Middle" dbus.Byte 0))).


(** A 12-bit field above the low nibble of a signed 16-bit word. *)
Definition signed_shifted : Reg := set_bits 12 (set_shift 4 (reg "Shifted" dbus.Int16 0)).


(** A [Double] register without and with an explicit bit length. *)
Definition double_no_bits : Reg := reg "D" dbus.Double 0.
Definition double_16_bits : Reg := set_bits 16 (reg "D" dbus.Double 0).

(** A role named "temperature", without settings or alarms. *)
Definition temperature_role : BleRole.Info :=
  {| BleRole.name := Val "temperature";
     BleRole.dev_instance := Val 30;
     BleRole.settings := Val [];
     BleRole.alarms := Val [] |}.

(** The roles "tank" and "temperature", registered. *)
Definition two_roles : BleRole.registry :=
  <["temperature" := temperature_role]> (<["tank" := BleRoleTank.info]> ∅).

(** The configuration of a device with the given roles and registers, all
    other keys as a device class would set them. *)
Definition device_info (roles : list (option string)) (regs : list Reg) : Info :=
  {| dev_mac := "aabbccddeeff";
     manufacturer_id := Val 0x1234;
     product_id := Val 0x0001;
     product_name := Val "Probe";
     DeviceName := Val "Probe EEFF";
     dev_prefix := Val "probe";
     dev_id := Val "probe_aabbccddeeff";
     BleDevice.roles := Val roles;
     BleDevice.regs := Val regs;
     BleDevice.settings := Val [];
     BleDevice.alarms := Val [] |}.

(** An alarm with a name and no [update], and a role that holds it. *)
Definition silent_alarm : Alarm :=
  {| alarm_name := Some "/Alarms/Silent"; alarm_update := None |}.

Definition silent_role : BleRole.Info :=
  {| BleRole.name := Val "silent";
     BleRole.dev_instance := Val 40;
     BleRole.settings := Val [];
     BleRole.alarms := Val [silent_alarm] |}.

Definition level : Reg := reg "Level" dbus.UInt16 1.
Definition switch : Reg := reg "Switch" dbus.Boolean 4.

(** A register that names the role "tank". *)
Definition tank_level : Reg := set_roles [Some "tank"] (reg "Level" dbus.Byte 0).

(** Teltonika payloads: version 1, then the flag byte, then the sections.
    The first has the temperature flag only (25.00 degrees), the second the
    humidity flag only (50 percent). *)
Definition eye_temperature : list byte := [x01; x01; x09; xc4].
Definition eye_humidity : list byte := [x01; x02; x32].

(** A world with the Teltonika class, the two roles and every device
    enabled, and a scanner that has seen nothing yet. *)
Definition world : DbusBleSensors.World :=
  {| DbusBleSensors.DEVICE_CLASSES := {[ BleDeviceTeltonika.MANUFACTURER_ID := BleDeviceTeltonika.cls ]};
     DbusBleSensors._ROLE_INSTANCE := two_roles;
     DbusBleSensors.ble_service := fun _ => true |}.

Definition fresh : DbusBleSensors.State :=
  {| DbusBleSensors._known_mac := ∅; DbusBleSensors._ignored_mac := [] |}.

Definition eye_address : string := "AA:BB:CC:DD:EE:FF".
Definition eye_mac : string := "aabbccddeeff".

(** The scanner after an advertisement of the device with the first
    payload, and the outcome of a second advertisement with the other. *)
Definition first_seen : DbusBleSensors.State * result DbusBleSensors.outcome :=
  DbusBleSensors._scan_callback world eye_address (Some "EYE")
    (Some [(BleDeviceTeltonika.MANUFACTURER_ID, eye_temperature)]) fresh.

Definition second_seen : DbusBleSensors.State * result DbusBleSensors.outcome :=
  DbusBleSensors._scan_callback world eye_address (Some "EYE")
    (Some [(BleDeviceTeltonika.MANUFACTURER_ID, eye_humidity)]) first_seen.1.

(** The register table and the role services of the device a scanner
    holds for [eye_mac]. *)
Definition stored_table (st : DbusBleSensors.State) : option (entry (list Reg)) :=
  dev ← DbusBleSensors._known_mac st !! eye_mac; Some (regs (info dev)).

Definition stored_services (st : DbusBleSensors.State) : option (list string) :=
  dev ← DbusBleSensors._known_mac st !! eye_mac; Some (_role_services dev).

(** The table [_compute_regs] builds from the second payload, and the
    values of the role "temperature" decoded with it. *)
Definition recomputed : result Info :=
  BleDeviceTeltonika._compute_regs (device_info [] []) eye_humidity.

Definition decoded_with_recomputed : result (option (gmap string pyval)) :=
  info ← recomputed;
  values ← _parse_manufacturer_data info eye_humidity;
  Ok (values !! Some "temperature").

End Inputs.

Import Validation.

(** ** [dbus_role_service.py]: the items of a role service *)

Module DbusRoleService.

(** [s.lstrip(c)], for a single character [c]. *)
Fixpoint lstrip (c : ascii) (s : string) : string :=
  match s with
  | EmptyString => EmptyString
  | String.String c' s' => if decide (c' = c) then lstrip c s' else s
  end.

(** [s.rstrip(c)], for a single character [c]. *)
Fixpoint rstrip (c : ascii) (s : string) : string :=
  match s with
  | EmptyString => EmptyString
  | String.String c' s' =>
      let rest := rstrip c s' in
      if decide (c' = c) then
        if decide (rest = EmptyString) then EmptyString else String.String c' rest
      else String.String c' rest
  end.

(** [_clear_path]: [f"/{path.lstrip('/').rstrip('/')}"]. *)
Definition _clear_path (path : string) : string :=
  "/" +:+ rstrip "/" (lstrip "/" path).

(** The items of the service, by path: what [VeDbusService] keeps in
    [_dbusobjects], each item with its local value. *)
Abbreviation items := (gmap string pyval).

(** [_get_value], which [__getitem__] calls: the value of the item, [None]
    where there is no item. *)
Definition _get_value (service : items) (path : string) : pyval :=
  default VNone (service !! _clear_path path).

(** [_set_value], which [__setitem__] calls: the item is created, or
    written when the value it holds differs ([!=]) from the new one. *)
Definition _set_value (service : items) (path : string) (value : pyval) : items :=
  let clean_path := _clear_path path in
  match service !! clean_path with
  | None => <[clean_path := value]> service
  | Some held => if negb (Py.eq held value) then <[clean_path := value]> service else service
  end.

(** [_delete_item]: nothing but a log line where there is no item. *)
Definition _delete_item (service : items) (path : string) : items :=
  let clean_path := _clear_path path in
  match service !! clean_path with
  | None => service
  | Some _ => delete clean_path service
  end.

(** [add_alarm]. *)
Definition add_alarm (service : items) (alarm : Alarm) : result items :=
  name ← getitem "name" (alarm_name alarm);
  Ok (_set_value service name (VNum (PInt 0))).

(** [update_alarm]: the callback reads the service through [__getitem__]. *)
Definition update_alarm (service : items) (alarm : Alarm) : result items :=
  update ← getitem "update" (alarm_update alarm);
  alarm_state ← update (_get_value service);
  name ← getitem "name" (alarm_name alarm);
  Ok (_set_value service name (VNum (PInt alarm_state))).

(** The loop [while cur_instance in existing_instances: cur_instance += 1]
    of [_get_vrm_instance], run for at most [fuel] tests. *)
Fixpoint next_free (fuel : nat) (existing_instances : gset Z) (cur_instance : Z) : option Z :=
  match fuel with
  | O => None
  | S fuel' =>
      if bool_decide (cur_instance ∈ existing_instances)
      then next_free fuel' existing_instances (cur_instance + 1)
      else Some cur_instance
  end.

(** The instance [_get_vrm_instance] assigns: the loop started at the
    [dev_instance] of the role, with one test more than there are
    instances in use. *)
Definition free_instance (existing_instances : gset Z) (dev_instance : Z) : option Z :=
  next_free (S (size existing_instances)) existing_instances dev_instance.

End DbusRoleService.

(** ** [ble_device.py]: what [handle_data] writes to a role service *)

Module Publish.

Import DbusRoleService.

(** [_update_dbus_data]: [sensor_data] is the list of the items of the
    dict, in its order. *)
Definition _update_dbus_data (service : items) (sensor_data : list (string * pyval)) : items :=
  foldl (fun service '(name, value) => _set_value service name value) service sensor_data.

(** The body of the loop of [handle_data] for one role service, after the
    (empty) [update_data] hooks: the values are written, then the alarms of
    the role and those of the device are updated. *)
Definition update_role_service (role_alarms device_alarms : list Alarm)
    (role_data : list (string * pyval)) (service : items) : result items :=
  let service := _update_dbus_data service role_data in
  service ← for_each update_alarm role_alarms service;
  for_each update_alarm device_alarms service.

End Publish.

(** ** [ble_role.py]: the registration loop of [load_instances] *)

Module Registry.

(** The body of the loop of [load_instances] for one role class the
    directory scan has found: [instance.check_configuration()], then
    [_ROLE_INSTANCE[instance.info['name']] = instance].  A name that is not
    a string gives a key no role name can equal; the registry, which is
    read with role names only, is left as it is. *)
Definition register (_ROLE_INSTANCE : BleRole.registry) (info : BleRole.Info)
  : result BleRole.registry :=
  _ ← BleRole.check_configuration info;
  match BleRole.name info with
  | Val name => Ok (<[name := info]> _ROLE_INSTANCE)
  | _ => Ok _ROLE_INSTANCE
  end.

(** [load_instances], on the roles found, in the order they are found. *)
Definition load_instances (found : list BleRole.Info) : result BleRole.registry :=
  for_each register found ∅.

(** [get_instance]. *)
Definition get_instance (_ROLE_INSTANCE : BleRole.registry) (role_name : string)
  : option BleRole.Info :=
  _ROLE_INSTANCE !! role_name.

End Registry.

(** ** The invariants the validators enforce, stated on the configuration *)

Module Invariants.

(** The key is in the dict and does not hold [None]. *)
Definition present {A : Type} (e : entry A) : Prop := e <> Missing /\ e <> IsNone.

Definition valid_setting (s : Setting) : Prop :=
  is_Some (setting_name s) /\
  exists props, setting_props s = Some props /\
    is_Some (props_def props) /\ is_Some (props_min props) /\ is_Some (props_max props).

Definition valid_alarm (a : Alarm) : Prop :=
  is_Some (alarm_name a) /\ is_Some (alarm_update a).

Definition valid_reg (registry : BleRole.registry) (r : Reg) : Prop :=
  is_Some (reg_name r) /\ is_Some (reg_offset r) /\
  (exists t, reg_type r = Some t /\ t ∈ _ALLOWED_TYPES /\
             (t = dbus.String -> exists bits, reg_bits r = Some bits /\ (bits mod 8 = 0)%N)) /\
  (forall listed role_name,
     reg_roles r = Some listed -> Some role_name ∈ listed -> is_Some (registry !! role_name)).

Definition valid_config (registry : BleRole.registry) (info : Info) : Prop :=
  (exists z, manufacturer_id info = Val z) /\ (exists z, product_id info = Val z) /\
  present (product_name info) /\ present (DeviceName info) /\ present (dev_prefix info) /\
  exists info_roles info_regs info_settings info_alarms,
    roles info = Val info_roles /\ regs info = Val info_regs /\
    settings info = Val info_settings /\ alarms info = Val info_alarms /\
    info_roles <> [] /\ info_regs <> [] /\
    (forall role_name, Some role_name ∈ info_roles -> is_Some (registry !! role_name)) /\
    Forall (valid_reg registry) info_regs /\
    Forall valid_setting info_settings /\
    Forall valid_alarm info_alarms.

Definition valid_role (info : BleRole.Info) : Prop :=
  present (BleRole.name info) /\ (exists z, BleRole.dev_instance info = Val z) /\
  exists info_settings info_alarms,
    BleRole.settings info = Val info_settings /\ BleRole.alarms info = Val info_alarms /\
    Forall valid_setting info_settings /\ Forall valid_alarm info_alarms.

End Invariants.

(** ** The Teltonika table as a function of the flag bits *)

Module TeltonikaTable.

Import BleDeviceTeltonika.

(** Bit [shift] of the flag byte; no bit is set when the payload has no
    byte 1. *)
Definition flag_bit (data : list byte) (shift : N) : bool :=
  match data !! 1%nat with
  | Some b => Z.testbit (byte_val b) (Z.of_N shift)
  | None => false
  end.

Definition width (present : bool) (bytes : N) : N := if present then bytes else 0%N.

(** The registers in encoding order, each section at the sum of the widths
    of the sections before it. *)
Definition table (flag : N -> bool) : list Reg :=
  let humidity_at := (2 + width (flag 0%N) 2)%N in
  let movement_at := (humidity_at + width (flag 1%N) 1)%N in
  let angle_at := (movement_at + width (flag 4%N) 2)%N in
  let battery_at := (angle_at + width (flag 5%N) 3)%N in
  [Version; EyeFlags; LowBattery]
  ++ (if flag 2%N then [InputState] else [])
  ++ (if flag 0%N then [Temperature 2] else [])
  ++ (if flag 1%N then [Humidity humidity_at] else [])
  ++ (if flag 4%N then [MovementState movement_at; MovementCount movement_at] else [])
  ++ (if flag 5%N then [Pitch angle_at; Roll] else [])
  ++ (if flag 7%N then [BatteryVoltage battery_at] else []).

(** The roles of the sections present, each once. *)
Definition role_list (flag : N -> bool) : list (option string) :=
  (if flag 2%N then [Some "digitalinput"] else [])
  ++ (if flag 0%N || flag 1%N then [Some "temperature"] else [])
  ++ (if flag 4%N || flag 5%N then [Some "movement"] else []).


(** The three roles the sections name are registered. *)
Definition roles_registered (registry : BleRole.registry) : Prop :=
  is_Some (registry !! "digitalinput") /\ is_Some (registry !! "temperature") /\
  is_Some (registry !! "movement").

End TeltonikaTable.

(** ** More inputs *)

Module Cases.

(** The three roles of the Teltonika sections, registered without settings
    or alarms. *)
Definition bare_role (name : string) : BleRole.Info :=
  {| BleRole.name := Val name;
     BleRole.dev_instance := Val 50;
     BleRole.settings := Val [];
     BleRole.alarms := Val [] |}.

Definition eye_roles : BleRole.registry :=
  <["digitalinput" := bare_role "digitalinput"]>
    (<["temperature" := bare_role "temperature"]>
       (<["movement" := bare_role "movement"]> ∅)).

Definition eye_everything : list byte :=
  [x01; xb7; x09; xc4; x32; x80; x07; xf6; x00; x10; x05].

(** A tank service with the high alarm enabled and the default
    thresholds. *)
Definition tank_service : gmap string pyval :=
  <["/Alarms/High/Enable" := VNum (PInt 1)]>
    (<["/Alarms/High/Active" := VNum (PInt 90)]>
       (<["/Alarms/High/Restore" := VNum (PInt 80)]>
          (<["/Alarms/High/State" := VNum (PInt 1)]>
             (<["/Level" := VNum (PFloat 85)]> ∅)))).

End Cases.

(** ** [dbus_ble_sensors.py]: the callback over a scan *)

Module Scanner.

Import DbusBleSensors.

(** What the callback reads of a detected device and of its
    advertisement. *)
Record advertisement : Type := {
  address : string;
  dev_name : option string;
  manufacturer_data : option (list (Z * list byte))
}.

(** The address as the callback keys its two tables. *)
Definition dev_mac (ad : advertisement) : string :=
  lower (without_char ":" (address ad)).

(** The state one callback leaves: what it had written when it returned or
    raised. *)
Definition callback (w : World) (st : State) (ad : advertisement) : State :=
  (_scan_callback w (address ad) (dev_name ad) (manufacturer_data ad) st).1.

(** The state after the advertisements of a scan, and of the scans after
    it: the scanner calls the callback on one after the other. *)
Definition callbacks (w : World) (ads : list advertisement) (st : State) : State :=
  foldl (callback w) st ads.

End Scanner.

Import Invariants.

(** ** Sanity checks of the embedding on the examples of the specification *)

Example endianness_little :
  load_int (reg "x" dbus.UInt16 0) [x01; x02] = Ok (VNum (PInt 513)).
Proof. reflexivity. Qed.

Example endianness_big :
  load_int (set_flags ["REG_FLAG_BIG_ENDIAN"] (reg "x" dbus.UInt16 0)) [x01; x02]
  = Ok (VNum (PInt 258)).
Proof. reflexivity. Qed.

Example string_hello :
  load_str (set_bits 40 (reg "s" dbus.String 0)) [x48; x65; x6c; x6c; x6f]
  = Ok (VStr [72; 101; 108; 108; 111]).
Proof. reflexivity. Qed.

Example signed_16 :
  load_int (reg "x" dbus.Int16 0) [xfe; xff] = Ok (VNum (PInt (-2))).
Proof. reflexivity. Qed.

Example teltonika_temperature :
  load_int (BleDeviceTeltonika.Temperature 2) [x01; x01; x09; xc4] = Ok (VNum (PFloat 25)).
Proof. reflexivity. Qed.

Example teltonika_battery :
  load_int (BleDeviceTeltonika.BatteryVoltage 0) [x05] = Ok (VNum (PFloat 2050)).
Proof. reflexivity. Qed.

(** ** Basic facts *)

Lemma bind_Ok {A B : Type} (a : A) (k : A -> result B) : (x ← Ok a; k x) = k a.
Proof. reflexivity. Qed.

Lemma bind_Raise {A B : Type} (e : exn) (k : A -> result B) : (x ← Raise e; k x) = Raise e.
Proof. reflexivity. Qed.

Lemma gtb_false_iff (a b : Z) : (a >? b) = false <-> a <= b.
Proof. rewrite Z.gtb_ltb, Z.ltb_ge. reflexivity. Qed.

Lemma gtb_true_iff (a b : Z) : (a >? b) = true <-> a > b.
Proof. rewrite Z.gtb_ltb, Z.ltb_lt. lia. Qed.

(** [load_int] is its stages, composed in the order of the source. *)
Lemma load_int_stages (r : Reg) (data : list byte) :
  load_int r data = decode_with mask_then_shift r data.
Proof.
  unfold load_int, decode_with.
  destruct (reg_offset r) as [offset|]; [|reflexivity].
  destruct (reg_type r) as [t|]; [|reflexivity].
  cbn [getitem mbind result_bind Py.bind].
  fold (effective_bits r t).
  destruct (effective_bits r t) as [bits|]; [|reflexivity].
  fold (span_size r bits).
  destruct (_ >? _); reflexivity.
Qed.

(** What [load_int] returns on a register that is readable. *)
Lemma load_int_readable (r : Reg) (data : list byte) (t : dbus.types) (offset bits : N) :
  readable r data t offset bits ->
  load_int r data
  = Ok (invalidate_check r
          (transformed r (mask_then_shift r bits (raw_value r t data offset bits)))).
Proof.
  intros [Ht Ho Hb Hf]. rewrite load_int_stages. unfold decode_with.
  rewrite Ho, Ht. cbn [getitem mbind result_bind Py.bind]. rewrite Hb.
  apply gtb_false_iff in Hf. rewrite Hf. reflexivity.
Qed.

(** What [load_int] returns on a register whose span is cut. *)
Lemma load_int_truncated (r : Reg) (data : list byte) (t : dbus.types) (offset bits : N) :
  reg_type r = Some t -> reg_offset r = Some offset -> effective_bits r t = Some bits ->
  truncated data offset (span_size r bits) ->
  load_int r data = Ok VNone.
Proof.
  intros Ht Ho Hb Hc. rewrite load_int_stages. unfold decode_with.
  rewrite Ho, Ht. cbn [getitem mbind result_bind Py.bind]. rewrite Hb.
  apply gtb_true_iff in Hc. rewrite Hc. reflexivity.
Qed.

(** ** Bytes and spans *)

Lemma byte_val_range (b : byte) : 0 <= byte_val b < 256.
Proof.
  unfold byte_val. pose proof (Byte.to_N_bounded b). lia.
Qed.

Lemma slice_one (data : list byte) (offset : N) (b : byte) :
  data !! N.to_nat offset = Some b -> slice data offset 1 = [b].
Proof.
  intros H. unfold slice. change (N.to_nat 1) with 1%nat.
  rewrite <- (take_drop (N.to_nat offset) data) in H.
  rewrite lookup_app_r in H by (rewrite length_take; lia).
  destruct (drop (N.to_nat offset) data) as [|c rest] eqn:Hd.
  - rewrite lookup_nil in H. discriminate.
  - assert (length (take (N.to_nat offset) data) = N.to_nat offset) as Hl.
    { rewrite length_take. apply Nat.min_l.
      assert (length (drop (N.to_nat offset) data) = length (c :: rest)) as Hlen
        by (rewrite Hd; reflexivity).
      rewrite length_drop in Hlen. simpl in Hlen. lia. }
    rewrite Hl, Nat.sub_diag in H. simpl in H. injection H as ->. reflexivity.
Qed.

Lemma from_bytes_one_unsigned (b : byte) (o : byteorder) :
  from_bytes [b] o false = byte_val b.
Proof. destruct o; unfold from_bytes; simpl; lia. Qed.

Lemma lookup_fits_one (data : list byte) (offset : N) (b : byte) :
  data !! N.to_nat offset = Some b -> fits data offset 1.
Proof.
  intros H. apply lookup_lt_Some in H. unfold fits. lia.
Qed.

Lemma land_ones_range (x : Z) (bits : N) :
  0 <= Z.land x (Z.shiftl 1 (Z.of_N bits) - 1) <= 2 ^ Z.of_N bits - 1.
Proof.
  rewrite Z.sub_1_r. change (Z.pred (Z.shiftl 1 (Z.of_N bits))) with (Z.ones (Z.of_N bits)).
  rewrite Z.land_ones by lia.
  pose proof (Z.mod_pos_bound x (2 ^ Z.of_N bits) ltac:(apply Z.pow_pos_nonneg; lia)).
  lia.
Qed.



(** ** The order of the transformations *)

(** C1 (as amended): on a register [load_int] can read, the result is the
    raw integer of the span put through mask, then shift with trim to the
    bit length, then scale, then bias, then xlate, then the invalidate
    check, in this order; and there is a register with both a mask and a
    shift on which this order and shift-before-mask give different
    results. *)
Theorem C1_fixed_order :
  forall (r : Reg) (data : list byte) (t : dbus.types) (offset bits : N),
    readable r data t offset bits ->
    load_int r data
    = Ok (invalidate_check r
            (apply_xlate r
               (VNum (apply_bias r
                        (apply_scale r
                           (PInt (apply_shift r bits
                                    (apply_mask r (raw_value r t data offset bits))))))))) /\
    exists (r' : Reg) (data' : list byte),
      is_Some (reg_mask r') /\ is_Some (reg_shift r') /\
      load_int r' data' <> decode_with shift_then_mask r' data'.
Proof.
  intros r data t offset bits Hr. split.
  - apply (load_int_readable _ _ _ _ _ Hr).
  - exists Inputs.middle_bits, [xbd].
    split; [eexists; reflexivity|]. split; [eexists; reflexivity|].
    vm_compute. discriminate.
Qed.

Lemma C1_fixed_order_witness :
  load_int Inputs.middle_bits [xbd] = Ok (VNum (PInt 15)) /\
  decode_with shift_then_mask Inputs.middle_bits [xbd] = Ok (VNum (PInt 12)).
Proof.
  split; [|reflexivity].
  destruct (C1_fixed_order Inputs.middle_bits [xbd] dbus.Byte 0 4) as [H _].
  - split; [reflexivity..|]. unfold fits. vm_compute. discriminate.
  - rewrite H. reflexivity.
Defined.

(** C1 as stated fails: the register below has a mask (0x3C) and a shift
    (2), the raw value 0xB1 of its span is neither zero nor all ones, and
    mask-then-shift and shift-then-mask both give 12. *)
Lemma C1_counterexample :
  let r := Inputs.middle_bits in
  let data := [xb1] in
  readable r data dbus.Byte 0 4 /\
  reg_mask r = Some 0x3C /\ reg_shift r = Some 2%N /\
  raw_value r dbus.Byte data 0 4 = 0xB1 /\
  load_int r data = Ok (VNum (PInt 12)) /\
  decode_with shift_then_mask r data = Ok (VNum (PInt 12)).
Proof.
  cbv zeta. repeat split; try reflexivity.
  unfold fits. vm_compute. discriminate.
Qed.

(** ** Scale and bias *)



(** ** Range of a shifted field *)

(** C6: with [shift] and [bits] both given and a payload that covers the
    span, the integer that goes into scale and bias lies between [0] and
    [2^bits - 1], whatever the type, the mask and the byte order. *)
Theorem C6_shift_bits_range :
  forall (r : Reg) (data : list byte) (t : dbus.types) (offset bits shift : N),
    reg_type r = Some t -> reg_offset r = Some offset ->
    reg_shift r = Some shift -> reg_bits r = Some bits ->
    fits data offset (span_size r bits) ->
    exists v : Z,
      v = mask_then_shift r bits (raw_value r t data offset bits) /\
      load_int r data = Ok (invalidate_check r (transformed r v)) /\
      0 <= v <= 2 ^ Z.of_N bits - 1.
Proof.
  intros r data t offset bits shift Ht Ho Hs Hb Hf.
  eexists. split; [reflexivity|]. split.
  - apply load_int_readable. split; try assumption.
    unfold effective_bits. rewrite Hb. reflexivity.
  - unfold mask_then_shift, apply_shift. rewrite Hs. apply land_ones_range.
Qed.

Lemma C6_shift_bits_range_witness :
  exists v : Z,
    v = mask_then_shift Inputs.signed_shifted 12
          (raw_value Inputs.signed_shifted dbus.Int16 [xff; xff] 0 12) /\
    load_int Inputs.signed_shifted [xff; xff]
    = Ok (invalidate_check Inputs.signed_shifted (transformed Inputs.signed_shifted v)) /\
    0 <= v <= 2 ^ Z.of_N 12 - 1.
Proof.
  apply (C6_shift_bits_range Inputs.signed_shifted [xff; xff] dbus.Int16 0 12 4);
    try reflexivity.
  unfold fits. vm_compute. discriminate.
Defined.

Example signed_shifted_value :
  load_int Inputs.signed_shifted [xff; xff] = Ok (VNum (PInt 4095)).
Proof. reflexivity. Qed.

(** ** The invalidate flag *)



(** ** Registers of type [Double] *)

(** C10: a [Double] register without [bits] decodes to [None] on every
    payload; with [bits], it is decoded by [load_int] as the unsigned
    integer of its span, exactly as a [UInt64] register with the same keys
    would be, and [_parse_manufacturer_data] sends it to [load_int]. *)
Theorem C10_double :
  forall (r : Reg) (data : list byte) (offset : N),
    reg_type r = Some dbus.Double -> reg_offset r = Some offset ->
    load r data = load_int r data /\
    (reg_bits r = None -> load_int r data = Ok VNone) /\
    (forall bits : N, reg_bits r = Some bits ->
       load_int r data = load_int (set_type dbus.UInt64 r) data /\
       (fits data offset (span_size r bits) ->
        load_int r data
        = Ok (invalidate_check r
                (transformed r
                   (mask_then_shift r bits
                      (from_bytes_unsigned (slice data offset (span_size r bits)) (order r))))))).
Proof.
  intros r data offset Ht Ho. split; [|split].
  - unfold load. rewrite Ht. reflexivity.
  - intros Hb. unfold load_int. rewrite Ho, Ht, Hb. reflexivity.
  - intros bits Hb. split.
    + unfold load_int, set_type. cbn [reg_offset reg_type reg_bits reg_flags reg_shift
        reg_mask reg_scale reg_bias reg_xlate reg_inval].
      rewrite Ho, Ht, Hb. reflexivity.
    + intros Hf.
      rewrite (load_int_readable r data dbus.Double offset bits).
      * unfold raw_value, from_bytes. reflexivity.
      * split; try assumption. unfold effective_bits. rewrite Hb. reflexivity.
Qed.

Lemma C10_double_witness :
  load_int Inputs.double_no_bits [x00; x00; x00; x00; x00; x00; xf0; x3f] = Ok VNone /\
  load_int Inputs.double_16_bits [x00; xc0] = Ok (VNum (PInt 49152)).
Proof.
  split.
  - apply (C10_double Inputs.double_no_bits _ 0); reflexivity.
  - destruct (C10_double Inputs.double_16_bits [x00; xc0] 0 eq_refl eq_refl) as (_ & _ & H).
    destruct (H 16%N eq_refl) as [_ H2]. rewrite H2; [reflexivity|].
    unfold fits. vm_compute. discriminate.
Defined.

(** ** The Teltonika register table *)

Lemma span_size_flag (shift : N) :
  (shift <= 7)%N -> span_size (BleDeviceTeltonika.Flag shift) 1 = 1%N.
Proof.
  intros H. unfold span_size. simpl.
  rewrite N.shiftr_div_pow2. change (2 ^ 3)%N with 8%N.
  symmetry. apply (N.div_unique _ _ _ shift); lia.
Qed.

(** The value [_compute_regs] gets for the flag at bit [shift] of byte 1. *)
Lemma load_int_flag (data : list byte) (b : byte) (shift : N) :
  (shift <= 7)%N -> data !! 1%nat = Some b ->
  load_int (BleDeviceTeltonika.Flag shift) data
  = Ok (VNum (PInt (Z.land (Z.shiftr (byte_val b) (Z.of_N shift)) 1))).
Proof.
  intros Hs Hb.
  rewrite (load_int_readable _ data dbus.Boolean 1 1).
  - unfold raw_value. rewrite (span_size_flag shift Hs).
    rewrite (slice_one data 1 b Hb), from_bytes_one_unsigned. reflexivity.
  - split; [reflexivity..|]. rewrite (span_size_flag shift Hs).
    apply (lookup_fits_one data 1 b Hb).
Qed.

(** C4: when the flag byte of a Teltonika payload is 0x01 (only the
    temperature bit), [_compute_regs] leaves in [info] the three header
    registers followed by [Temperature] at byte offset 2, and the role list
    [["temperature"]]. *)
Theorem C4_teltonika_temperature_only :
  forall (info : Info) (data : list byte),
    data !! 1%nat = Some x01 ->
    exists info' : Info,
      BleDeviceTeltonika._compute_regs info data = Ok info' /\
      regs info'
      = Val [BleDeviceTeltonika.Version; BleDeviceTeltonika.EyeFlags;
             BleDeviceTeltonika.LowBattery; BleDeviceTeltonika.Temperature 2] /\
      reg_offset (BleDeviceTeltonika.Temperature 2) = Some 2%N /\
      roles info' = Val [Some "temperature"].
Proof.
  intros info data Hb. eexists. split; [|split; [|split]].
  - unfold BleDeviceTeltonika._compute_regs.
    rewrite !(load_int_flag data x01) by (assumption || lia).
    reflexivity.
  - reflexivity.
  - reflexivity.
  - reflexivity.
Qed.

Lemma C4_teltonika_temperature_only_witness :
  exists info' : Info,
    BleDeviceTeltonika._compute_regs (Inputs.device_info [] []) Inputs.eye_temperature
    = Ok info' /\
    regs info'
    = Val [BleDeviceTeltonika.Version; BleDeviceTeltonika.EyeFlags;
           BleDeviceTeltonika.LowBattery; BleDeviceTeltonika.Temperature 2] /\
    reg_offset (BleDeviceTeltonika.Temperature 2) = Some 2%N /\
    roles info' = Val [Some "temperature"].
Proof.
  apply (C4_teltonika_temperature_only (Inputs.device_info [] []) Inputs.eye_temperature).
  reflexivity.
Defined.

(** ** Loops that stop at the first exception *)




(** ** Truncated spans and malformed strings *)








(** A [Boolean] register whose span is cut is not left out: [bool(None)]
    is [False], and [False] is stored. *)
Example boolean_truncated_is_stored :
  (_parse_manufacturer_data (Inputs.device_info [Some "tank"] [Inputs.switch]) [x41; x02]
   ≫= fun values => Ok (values !! Some "tank" ≫= fun m => m !! "Switch"))
  = Ok (Some (VBool false)).
Proof. reflexivity. Qed.

(** ** The validators *)

Lemma bind_Ok_inv {A B : Type} (m : result A) (k : A -> result B) (b : B) :
  (m ≫= k) = Ok b -> exists a, m = Ok a /\ k a = Ok b.
Proof. destruct m as [a|e]; [intros H; exists a; split; [reflexivity|exact H]|discriminate]. Qed.

Lemma config_errors_bind {A B : Type} (m : result A) (k : A -> result B) :
  config_errors_only m -> (forall a, m = Ok a -> config_errors_only (k a)) ->
  config_errors_only (m ≫= k).
Proof.
  intros Hm Hk e. destruct m as [a|e'].
  - apply (Hk a eq_refl).
  - intros H. cbn in H. injection H as <-. apply Hm. reflexivity.
Qed.

Lemma config_errors_Ok {A : Type} (a : A) : config_errors_only (Ok a).
Proof. intros e H. discriminate. Qed.

Lemma config_errors_ValueError {A : Type} (why : config_error) :
  config_errors_only (@Raise A (ValueError why)).
Proof. intros e H. injection H as <-. exists why. reflexivity. Qed.

Create HintDb config.
#[local] Hint Resolve config_errors_Ok config_errors_ValueError : config.

Lemma for_each_unit_Ok {A : Type} (f : A -> result unit) (l : list A) :
  for_each (fun _ x => f x) l () = Ok () -> forall x, x ∈ l -> f x = Ok ().
Proof.
  induction l as [|y l IH]; intros H x Hin.
  - inversion Hin.
  - cbn [for_each] in H. destruct (f y) as [[]|e] eqn:Hy; [|discriminate].
    inversion Hin; subst; [exact Hy|]. apply IH; assumption.
Qed.

Lemma for_each_unit_errors {A : Type} (f : A -> result unit) (l : list A) :
  (forall x, x ∈ l -> config_errors_only (f x)) ->
  config_errors_only (for_each (fun _ x => f x) l ()).
Proof.
  induction l as [|y l IH]; intros Hf; [apply config_errors_Ok|].
  cbn [for_each]. apply (config_errors_bind (f y)).
  - apply Hf. left.
  - intros [] _. apply IH. intros x Hx. apply Hf. right. exact Hx.
Qed.

Lemma for_keys_Ok (check : string -> shape -> result unit) (info : string -> shape)
    (keys : list string) :
  for_keys check info keys = Ok () -> forall key, key ∈ keys -> check key (info key) = Ok ().
Proof. apply (for_each_unit_Ok (fun key => check key (info key))). Qed.

Lemma for_keys_errors (check : string -> shape -> result unit) (info : string -> shape)
    (keys : list string) :
  (forall key s, config_errors_only (check key s)) ->
  config_errors_only (for_keys check info keys).
Proof.
  intros H. apply (for_each_unit_errors (fun key => check key (info key))).
  intros key _. apply H.
Qed.

Lemma for_enumerate_eq {A : Type} (check : nat -> A -> result unit) (l : list A) :
  for_enumerate check l = for_each (fun _ p => check p.1 p.2) (imap pair l) ().
Proof.
  unfold for_enumerate. generalize (imap pair l). intros ps. generalize ().
  induction ps as [|[i x] ps IH]; intros u; [reflexivity|].
  cbn [for_each]. change (check (i, x).1 (i, x).2) with (check i x).
  destruct (check i x) as [u'|e]; cbn [Py.bind]; [apply IH|reflexivity].
Qed.

Lemma elem_of_enumerate {A : Type} (l : list A) (x : A) :
  x ∈ l -> exists i, (i, x) ∈ imap pair l.
Proof.
  intros Hin. apply list_elem_of_lookup in Hin as [i Hi]. exists i.
  apply list_elem_of_lookup. exists i. rewrite list_lookup_imap, Hi. reflexivity.
Qed.

Lemma for_enumerate_Ok {A : Type} (check : nat -> A -> result unit) (l : list A) :
  for_enumerate check l = Ok () -> forall x, x ∈ l -> exists i, check i x = Ok ().
Proof.
  rewrite for_enumerate_eq. intros H x Hin.
  destruct (elem_of_enumerate l x Hin) as [i Hi]. exists i.
  apply (for_each_unit_Ok (fun p => check p.1 p.2) _ H (i, x) Hi).
Qed.

Lemma for_enumerate_errors {A : Type} (check : nat -> A -> result unit) (l : list A) :
  (forall i x, config_errors_only (check i x)) ->
  config_errors_only (for_enumerate check l).
Proof.
  intros H. rewrite for_enumerate_eq.
  apply (for_each_unit_errors (fun p => check p.1 p.2)). intros [i x] _. apply H.
Qed.

Lemma check_key_errors (key : string) (s : shape) : config_errors_only (check_key key s).
Proof. destruct s; cbn; auto with config. Qed.

Lemma check_isinstance_errors (err : string -> config_error) (key : string) (s : shape) :
  config_errors_only (check_isinstance err key s).
Proof. destruct s; cbn; auto with config. Qed.

Lemma check_isinstance_Ok (err : string -> config_error) (key : string) {A : Type}
    (e : entry A) :
  check_isinstance err key (shape_of e) = Ok () -> exists a, e = Val a.
Proof. destruct e as [| | |a]; try discriminate. intros _. exists a. reflexivity. Qed.

Lemma check_not_empty_errors {A : Type} (key : string) (l : list A) :
  config_errors_only (check_not_empty key l).
Proof. unfold check_not_empty. destruct (_ <? _)%nat; auto with config. Qed.

Lemma check_not_empty_Ok {A : Type} (key : string) (l : list A) :
  check_not_empty key l = Ok () -> l <> [].
Proof. intros H ->. discriminate. Qed.

Lemma check_role_errors (registry : BleRole.registry) (err : string -> config_error)
    (r : option string) :
  config_errors_only (check_role registry err r).
Proof.
  unfold check_role. destruct r as [role_name|]; [|auto with config].
  destruct (registry !! role_name); auto with config.
Qed.

Lemma check_setting_errors (index : nat) (setting : Setting) :
  config_errors_only (check_setting index setting).
Proof.
  unfold check_setting, check_props_key.
  destruct (setting_name setting); [|auto with config].
  destruct (setting_props setting) as [props|]; [|auto with config].
  destruct (props_def props), (props_min props), (props_max props); cbn; auto with config.
Qed.

Lemma check_alarm_errors (index : nat) (alarm : Alarm) :
  config_errors_only (check_alarm index alarm).
Proof.
  unfold check_alarm.
  destruct (alarm_name alarm); [|auto with config].
  destruct (alarm_update alarm); auto with config.
Qed.

Lemma check_alarm_no_update (index : nat) (alarm : Alarm) :
  no_update alarm -> exists why, check_alarm index alarm = Raise (ValueError why).
Proof.
  intros [[name Hn] Hu]. unfold check_alarm. rewrite Hn, Hu. eexists. reflexivity.
Qed.

Lemma check_reg_errors (registry : BleRole.registry) (index : nat) (r : Reg) :
  config_errors_only (check_reg registry index r).
Proof.
  unfold check_reg, check_reg_key.
  destruct (reg_name r) as [name|]; [|auto with config].
  destruct (reg_type r) as [t|]; [|cbn; auto with config].
  destruct (reg_offset r) as [offset|]; [|cbn; auto with config].
  cbn [getitem mbind result_bind Py.bind].
  destruct (bool_decide (t ∈ _ALLOWED_TYPES)); [|cbn; auto with config].
  cbn [mbind result_bind Py.bind].
  apply config_errors_bind.
  - destruct (bool_decide (t = dbus.String)); [|auto with config].
    destruct (reg_bits r) as [bits|]; [|auto with config].
    destruct (negb _); auto with config.
  - intros [] _. destruct (reg_roles r) as [roles|]; [|auto with config].
    apply (for_each_unit_errors (check_role registry (fun role_name => RegUnknownRole role_name name))).
    intros x _. apply check_role_errors.
Qed.

(** What a configuration that passes [_check_configuration] looks like. *)
Lemma _check_configuration_Ok (registry : BleRole.registry) (info : Info) :
  _check_configuration registry info = Ok () ->
  exists info_roles info_regs info_settings info_alarms,
    roles info = Val info_roles /\ regs info = Val info_regs /\
    settings info = Val info_settings /\ alarms info = Val info_alarms /\
    info_roles <> [] /\ info_regs <> [] /\
    (forall r, r ∈ info_regs -> exists i, check_reg registry i r = Ok ()) /\
    (forall a, a ∈ info_alarms -> exists i, check_alarm i a = Ok ()).
Proof.
  unfold _check_configuration. intros H.
  apply bind_Ok_inv in H as ([] & _ & H).
  apply bind_Ok_inv in H as ([] & _ & H).
  apply bind_Ok_inv in H as ([] & Hlists & H).
  pose proof (for_keys_Ok _ _ _ Hlists) as Hl.
  destruct (check_isinstance_Ok NotAList "roles" (roles info)) as [rl Hrl];
    [apply (Hl "roles"); set_solver|].
  destruct (check_isinstance_Ok NotAList "regs" (regs info)) as [rs Hrs];
    [apply (Hl "regs"); set_solver|].
  destruct (check_isinstance_Ok NotAList "settings" (settings info)) as [ss Hss];
    [apply (Hl "settings"); set_solver|].
  destruct (check_isinstance_Ok NotAList "alarms" (alarms info)) as [al Hal];
    [apply (Hl "alarms"); set_solver|].
  rewrite Hrl, Hrs, Hss, Hal in H. cbn [Config.get mbind result_bind Py.bind] in H.
  apply bind_Ok_inv in H as ([] & Hne1 & H).
  apply bind_Ok_inv in H as ([] & Hne2 & H).
  apply bind_Ok_inv in H as ([] & _ & H).
  apply bind_Ok_inv in H as ([] & Hregs & H).
  apply bind_Ok_inv in H as ([] & _ & H).
  exists rl, rs, ss, al. repeat split; try assumption.
  - apply (check_not_empty_Ok _ _ Hne1).
  - apply (check_not_empty_Ok _ _ Hne2).
  - apply (for_enumerate_Ok _ _ Hregs).
  - apply (for_enumerate_Ok _ _ H).
Qed.

(** [_check_configuration] raises nothing but configuration errors. *)
Lemma _check_configuration_errors (registry : BleRole.registry) (info : Info) :
  config_errors_only (_check_configuration registry info).
Proof.
  unfold _check_configuration.
  apply config_errors_bind; [apply for_keys_errors, check_key_errors|]. intros [] _.
  apply config_errors_bind; [apply for_keys_errors, check_isinstance_errors|]. intros [] _.
  apply config_errors_bind; [apply for_keys_errors, check_isinstance_errors|].
  intros [] Hlists.
  pose proof (for_keys_Ok _ _ _ Hlists) as Hl.
  destruct (check_isinstance_Ok NotAList "roles" (roles info)) as [rl Hrl];
    [apply (Hl "roles"); set_solver|].
  destruct (check_isinstance_Ok NotAList "regs" (regs info)) as [rs Hrs];
    [apply (Hl "regs"); set_solver|].
  destruct (check_isinstance_Ok NotAList "settings" (settings info)) as [ss Hss];
    [apply (Hl "settings"); set_solver|].
  destruct (check_isinstance_Ok NotAList "alarms" (alarms info)) as [al Hal];
    [apply (Hl "alarms"); set_solver|].
  rewrite Hrl, Hrs, Hss, Hal. cbn [Config.get mbind result_bind Py.bind].
  apply config_errors_bind; [apply check_not_empty_errors|]. intros [] _.
  apply config_errors_bind; [apply check_not_empty_errors|]. intros [] _.
  apply config_errors_bind.
  { apply (for_each_unit_errors (check_role registry UnknownRole)).
    intros r _. apply check_role_errors. }
  intros [] _.
  apply config_errors_bind; [apply for_enumerate_errors, check_reg_errors|]. intros [] _.
  apply config_errors_bind; [apply for_enumerate_errors, check_setting_errors|]. intros [] _.
  apply for_enumerate_errors, check_alarm_errors.
Qed.

(** A configuration that does not pass is refused with a configuration
    error. *)
Lemma _check_configuration_refuses (registry : BleRole.registry) (info : Info) :
  _check_configuration registry info <> Ok () ->
  exists why, _check_configuration registry info = Raise (ValueError why).
Proof.
  intros Hno. destruct (_check_configuration registry info) as [[]|e] eqn:Hc.
  - contradiction.
  - destruct (_check_configuration_errors registry info e Hc) as [why ->].
    exists why. reflexivity.
Qed.

Lemma no_regs_not_Ok (registry : BleRole.registry) (info : Info) :
  no_regs info -> _check_configuration registry info <> Ok ().
Proof.
  intros Hno Hok.
  destruct (_check_configuration_Ok registry info Hok)
    as (rl & rs & ss & al & _ & Hrs & _ & _ & _ & Hne & _).
  unfold _check_configuration in Hok.
  apply bind_Ok_inv in Hok as ([] & Hkeys & _).
  pose proof (for_keys_Ok _ _ _ Hkeys "regs" ltac:(set_solver)) as Hk.
  change (shape_at info "regs") with (shape_of (regs info)) in Hk.
  destruct Hno as [H|[H|H]]; rewrite H in Hk; try discriminate.
  rewrite H in Hrs. injection Hrs as <-. contradiction.
Qed.

Lemma alarm_without_update_not_Ok (registry : BleRole.registry) (info : Info) :
  alarm_without_update (alarms info) -> _check_configuration registry info <> Ok ().
Proof.
  intros (al & a & Hal & Hin & Hno) Hok.
  destruct (_check_configuration_Ok registry info Hok)
    as (rl & rs & ss & al' & _ & _ & _ & Hal' & _ & _ & _ & Halarms).
  rewrite Hal in Hal'. injection Hal' as <-.
  destruct (Halarms a Hin) as [i Hi].
  destruct (check_alarm_no_update i a Hno) as [why Hwhy].
  rewrite Hwhy in Hi. discriminate.
Qed.

Lemma _load_configuration_keeps (cls : Class) (info info' : Info) :
  _load_configuration cls info = Ok info' ->
  regs info' = regs info /\ alarms info' = alarms info /\ roles info' = roles info.
Proof.
  unfold _load_configuration. intros H.
  apply bind_Ok_inv in H as (prefix & _ & H).
  apply bind_Ok_inv in H as (device_name & _ & H).
  injection H as <-. repeat split.
Qed.

(** [init] raises on a configuration that [_check_configuration] refuses. *)
Lemma init_refuses (registry : BleRole.registry) (self : Instance) :
  no_regs (info self) \/ alarm_without_update (alarms (info self)) ->
  exists e, init registry self = Raise e.
Proof.
  intros Hbad. unfold init.
  destruct (_load_configuration (class self) (info self)) as [info'|e] eqn:Hload;
    [|exists e; reflexivity].
  cbn [mbind result_bind Py.bind].
  destruct (_load_configuration_keeps _ _ _ Hload) as (Hregs & Halarms & _).
  destruct (_check_configuration_refuses registry info') as [why Hwhy].
  - destruct Hbad as [Hno|Hal].
    + apply no_regs_not_Ok. unfold no_regs. rewrite Hregs. exact Hno.
    + apply alarm_without_update_not_Ok. rewrite Halarms. exact Hal.
  - rewrite Hwhy. eexists. reflexivity.
Qed.

(** What [BleRole.check_configuration] raises on a role with an alarm
    without [update]. *)
Lemma role_check_configuration_refuses (info : BleRole.Info) :
  alarm_without_update (BleRole.alarms info) ->
  exists e, BleRole.check_configuration info = Raise e /\
            (BleRole.name info <> Missing -> exists why, e = ValueError why).
Proof.
  intros (al & a & Hal & Hin & Hno).
  unfold BleRole.check_configuration.
  match goal with |- exists e, (_ ≫= fun _ => ?rest) = _ /\ _ => set (body := rest) end.
  assert (config_errors_only body) as Herrors.
  { unfold body.
    apply config_errors_bind; [apply for_keys_errors, check_key_errors|]. intros [] _.
    apply config_errors_bind; [apply for_keys_errors, check_isinstance_errors|]. intros [] _.
    apply config_errors_bind; [apply for_keys_errors, check_isinstance_errors|].
    intros [] Hlists. pose proof (for_keys_Ok _ _ _ Hlists) as Hl.
    destruct (check_isinstance_Ok NotAList "settings" (BleRole.settings info)) as [ss Hss];
      [apply (Hl "settings"); set_solver|].
    rewrite Hss, Hal. cbn [Config.get mbind result_bind Py.bind].
    apply config_errors_bind; [apply for_enumerate_errors, check_setting_errors|].
    intros [] _. apply for_enumerate_errors, check_alarm_errors. }
  assert (forall u : unit, body <> Ok u) as Hnot.
  { unfold body. intros [] H.
    apply bind_Ok_inv in H as ([] & _ & H).
    apply bind_Ok_inv in H as ([] & _ & H).
    apply bind_Ok_inv in H as ([] & _ & H).
    apply bind_Ok_inv in H as (ss & _ & H).
    apply bind_Ok_inv in H as ([] & _ & H).
    rewrite Hal in H. cbn [Config.get mbind result_bind Py.bind] in H.
    destruct (for_enumerate_Ok _ _ H a Hin) as [i Hi].
    destruct (check_alarm_no_update i a Hno) as [why Hwhy].
    rewrite Hwhy in Hi. discriminate. }
  clearbody body.
  destruct (BleRole.name info) eqn:Hname.
  - exists (KeyError "name"). split; [reflexivity|]. intros H. contradiction.
  - destruct body as [u|e]; [destruct (Hnot u eq_refl)|].
    exists e. split; [reflexivity|]. intros _. apply (Herrors e eq_refl).
  - destruct body as [u|e]; [destruct (Hnot u eq_refl)|].
    exists e. split; [reflexivity|]. intros _. apply (Herrors e eq_refl).
  - destruct body as [u|e]; [destruct (Hnot u eq_refl)|].
    exists e. split; [reflexivity|]. intros _. apply (Herrors e eq_refl).
Qed.

(** The scan callback does not keep a device whose configuration is
    refused: the exception leaves the scanner as it was. *)
Lemma scan_items_refuses (w : DbusBleSensors.World) (dev_mac : string)
    (dev_name : option string) (man_id : Z) (man_data : list byte)
    (items : list (Z * list byte)) (written : list (list (string * gmap string pyval)))
    (st : DbusBleSensors.State) (device_class : Class) (info' : Info) :
  DbusBleSensors._known_mac st !! dev_mac = None ->
  DbusBleSensors.DEVICE_CLASSES w !! man_id = Some device_class ->
  configure device_class (info (__init__ device_class dev_mac dev_name)) man_data = Ok info' ->
  no_regs info' \/ alarm_without_update (alarms info') ->
  exists e,
    DbusBleSensors.scan_items w dev_mac dev_name ((man_id, man_data) :: items) written st
    = (st, Raise e).
Proof.
  intros Hnew Hcls Hconf Hbad. cbn [DbusBleSensors.scan_items].
  rewrite Hnew, Hcls, Hconf. cbn [mbind result_bind Py.bind].
  destruct (init_refuses (DbusBleSensors._ROLE_INSTANCE w)
              {| class := device_class; info := info';
                 _role_services := _role_services (__init__ device_class dev_mac dev_name) |})
    as [e He]; [exact Hbad|].
  rewrite He. exists e. reflexivity.
Qed.

(** C8: [_check_configuration] raises a configuration error on every
    device configuration whose [regs] is absent, [None] or empty, and on
    every one with an alarm that has a name and no [update];
    [BleRole.check_configuration] raises on every role with such an alarm
    (a configuration error whenever the role has the key [name]); and the
    scan callback then raises before any decode, without keeping the
    device. *)
Theorem C8_validation_rejects :
  (forall (registry : BleRole.registry) (info : Info),
     no_regs info \/ alarm_without_update (alarms info) ->
     exists why, _check_configuration registry info = Raise (ValueError why)) /\
  (forall role_info : BleRole.Info,
     alarm_without_update (BleRole.alarms role_info) ->
     exists e, BleRole.check_configuration role_info = Raise e /\
               (BleRole.name role_info <> Missing -> exists why, e = ValueError why)) /\
  (forall (w : DbusBleSensors.World) (dev_mac : string) (dev_name : option string)
          (man_id : Z) (man_data : list byte) (items : list (Z * list byte))
          (written : list (list (string * gmap string pyval))) (st : DbusBleSensors.State)
          (device_class : Class) (info' : Info),
     DbusBleSensors._known_mac st !! dev_mac = None ->
     DbusBleSensors.DEVICE_CLASSES w !! man_id = Some device_class ->
     configure device_class (info (__init__ device_class dev_mac dev_name)) man_data = Ok info' ->
     no_regs info' \/ alarm_without_update (alarms info') ->
     exists e,
       DbusBleSensors.scan_items w dev_mac dev_name ((man_id, man_data) :: items) written st
       = (st, Raise e)).
Proof.
  split; [|split].
  - intros registry info [Hno|Hal]; apply _check_configuration_refuses.
    + apply no_regs_not_Ok, Hno.
    + apply alarm_without_update_not_Ok, Hal.
  - apply role_check_configuration_refuses.
  - apply scan_items_refuses.
Qed.

Lemma C8_validation_rejects_witness :
  (exists why,
     _check_configuration Inputs.two_roles (Inputs.device_info [Some "tank"] [])
     = Raise (ValueError why)) /\
  (exists e, BleRole.check_configuration Inputs.silent_role = Raise e /\
             (BleRole.name Inputs.silent_role <> Missing -> exists why, e = ValueError why)).
Proof.
  destruct C8_validation_rejects as (Hdevice & Hrole & _). split.
  - apply Hdevice. left. right. right. reflexivity.
  - apply Hrole. exists [Inputs.silent_alarm], Inputs.silent_alarm.
    split; [reflexivity|]. split; [apply list_elem_of_here|].
    split; [eexists; reflexivity|reflexivity].
Defined.

Example device_without_regs_error :
  _check_configuration Inputs.two_roles (Inputs.device_info [Some "tank"] [])
  = Raise (ValueError (EmptyList "regs")).
Proof. reflexivity. Qed.

Example role_without_update_error :
  BleRole.check_configuration Inputs.silent_role
  = Raise (ValueError (AlarmMissingKey "update" "/Alarms/Silent")).
Proof. reflexivity. Qed.

Example tank_role_is_valid : BleRole.check_configuration BleRoleTank.info = Ok ().
Proof. reflexivity. Qed.

(** ** The keys of the decoded mapping *)

(** An invariant of the accumulator holds after the loop, and an
    exception of the loop is an exception of a step. *)
Lemma for_each_invariant {A S : Type} (step : S -> A -> result S) (I : S -> Prop)
    (E : exn -> Prop) (l : list A) (acc : S) :
  I acc ->
  (forall acc' x, x ∈ l -> I acc' ->
     match step acc' x with Ok acc'' => I acc'' | Raise e => E e end) ->
  match for_each step l acc with Ok acc' => I acc' | Raise e => E e end.
Proof.
  revert acc. induction l as [|x l IH]; intros acc Hacc Hstep; [exact Hacc|].
  cbn [for_each]. pose proof (Hstep acc x ltac:(left) Hacc) as Hx.
  destruct (step acc x) as [acc'|e]; [|exact Hx].
  cbn [Py.bind]. apply IH; [exact Hx|].
  intros acc'' y Hy. apply Hstep. right. exact Hy.
Qed.

Lemma load_int_total (r : Reg) (data : list byte) (t : dbus.types) (offset : N) :
  reg_type r = Some t -> reg_offset r = Some offset -> exists v, load_int r data = Ok v.
Proof.
  intros Ht Ho. rewrite load_int_stages. unfold decode_with. rewrite Ho, Ht.
  cbn [getitem mbind result_bind Py.bind].
  destruct (effective_bits r t) as [bits|]; [|eexists; reflexivity].
  destruct (_ >? _); eexists; reflexivity.
Qed.

(** What [check_reg] has verified of a register it accepts. *)
Lemma check_reg_Ok (registry : BleRole.registry) (index : nat) (r : Reg) :
  check_reg registry index r = Ok () ->
  exists name t offset,
    reg_name r = Some name /\ reg_type r = Some t /\ reg_offset r = Some offset /\
    t ∈ _ALLOWED_TYPES /\ (t = dbus.String -> is_Some (reg_bits r)).
Proof.
  unfold check_reg, check_reg_key. intros H.
  destruct (reg_name r) as [name|]; [|discriminate].
  destruct (reg_type r) as [t|]; [|discriminate].
  destruct (reg_offset r) as [offset|]; [|discriminate].
  cbn [getitem mbind result_bind Py.bind] in H.
  destruct (bool_decide (t ∈ _ALLOWED_TYPES)) eqn:Hallowed; [|discriminate].
  cbn [mbind result_bind Py.bind] in H.
  apply bind_Ok_inv in H as ([] & Hbits & _).
  exists name, t, offset. repeat split; try reflexivity.
  - apply bool_decide_eq_true in Hallowed. exact Hallowed.
  - intros ->. rewrite bool_decide_eq_true_2 in Hbits by reflexivity.
    destruct (reg_bits r) as [bits|]; [eexists; reflexivity|discriminate].
Qed.

(** A register the validator accepts decodes to a value or to [None];
    only a [String] register can raise, and then [UnicodeDecodeError]. *)
Lemma load_validated (registry : BleRole.registry) (index : nat) (r : Reg) (data : list byte) :
  check_reg registry index r = Ok () ->
  match load r data with
  | Ok _ => True
  | Raise e => e = UnicodeDecodeError /\ reg_type r = Some dbus.String
  end.
Proof.
  intros H. destruct (check_reg_Ok _ _ _ H) as (name & t & offset & Hn & Ht & Ho & _ & Hbits).
  unfold load. rewrite Ht. cbn [getitem mbind result_bind Py.bind].
  destruct (load_int_total r data t offset Ht Ho) as [v Hv].
  destruct t; rewrite ?Hv; cbn [mbind result_bind Py.bind]; try exact I.
  destruct (Hbits eq_refl) as [bits Hb].
  unfold load_str. rewrite Ho, Hb. cbn [getitem mbind result_bind Py.bind].
  destruct (_ >? _); [exact I|].
  destruct (utf8_decode _); [exact I|]. split; reflexivity.
Qed.

Lemma store_keeps_keys (r : Reg) (name : string) (value : pyval)
    (values : gmap (option string) (gmap string pyval)) (key : option string) :
  reg_name r = Some name -> key ∈ dom values ->
  exists values', store r value values key = Ok values' /\ dom values' = dom values.
Proof.
  intros Hn Hkey. apply elem_of_dom in Hkey as [role_values Hv].
  unfold store. rewrite Hv, Hn. cbn [getitem mbind result_bind Py.bind].
  eexists. split; [reflexivity|].
  rewrite dom_insert_L. apply elem_of_dom_2 in Hv.
  apply subseteq_union_1_L, singleton_subseteq_l, Hv.
Qed.

Lemma store_all_keeps_keys (r : Reg) (name : string) (value : pyval)
    (keys : list (option string)) (values : gmap (option string) (gmap string pyval)) :
  reg_name r = Some name -> (forall key, key ∈ keys -> key ∈ dom values) ->
  exists values', for_each (store r value) keys values = Ok values' /\ dom values' = dom values.
Proof.
  intros Hn. revert values. induction keys as [|key keys IH]; intros values Hkeys.
  - exists values. split; reflexivity.
  - destruct (store_keeps_keys r name value values key Hn) as (values1 & Hs & Hd);
      [apply Hkeys; left|].
    cbn [for_each]. rewrite Hs. cbn [Py.bind].
    destruct (IH values1) as (values2 & Hs2 & Hd2).
    + intros k Hk. rewrite Hd. apply Hkeys. right. exact Hk.
    + exists values2. split; [exact Hs2|]. rewrite Hd2. exact Hd.
Qed.

Lemma initial_values_keys (info_roles : list (option string))
    (values : gmap (option string) (gmap string pyval)) :
  dom (foldl (fun values r => <[r := ∅]> values) values info_roles)
  = list_to_set info_roles ∪ dom values.
Proof.
  revert values. induction info_roles as [|r l IH]; intros values.
  - cbn [foldl list_to_set]. rewrite (left_id_L ∅ (∪)). reflexivity.
  - cbn [foldl list_to_set]. rewrite IH, dom_insert_L.
    rewrite (assoc_L (∪)), (comm_L (∪) (list_to_set l)). reflexivity.
Qed.

(** One register leaves the keys of [values] as they are. *)
Lemma parse_reg_keeps_keys (registry : BleRole.registry) (index : nat)
    (info_roles : list (option string)) (data : list byte)
    (values : gmap (option string) (gmap string pyval)) (r : Reg) :
  check_reg registry index r = Ok () -> roles_declared info_roles r ->
  dom values = list_to_set info_roles ->
  match parse_reg info_roles data values r with
  | Ok values' => dom values' = list_to_set info_roles
  | Raise e => e = UnicodeDecodeError /\ reg_type r = Some dbus.String
  end.
Proof.
  intros Hc Hdecl Hdom. pose proof (load_validated registry index r data Hc) as Hload.
  destruct (check_reg_Ok _ _ _ Hc) as (name & t & offset & Hn & _).
  unfold parse_reg. destruct (load r data) as [value|e]; [|exact Hload].
  cbn [mbind result_bind Py.bind].
  assert (forall keys, (forall key, key ∈ keys -> key ∈ dom values) ->
            match for_each (store r value) keys values with
            | Ok values' => dom values' = list_to_set info_roles
            | Raise e => e = UnicodeDecodeError /\ reg_type r = Some dbus.String
            end) as Hstore.
  { intros keys Hkeys.
    destruct (store_all_keeps_keys r name value keys values Hn Hkeys) as (values' & -> & Hd).
    rewrite Hd. exact Hdom. }
  assert (match
            match reg_roles r with
            | Some roles =>
                if bool_decide (roles ≠ []) && bool_decide (None ∈ roles) then Ok values
                else for_each (store r value) roles values
            | None => for_each (store r value) info_roles values
            end
          with
          | Ok values' => dom values' = list_to_set info_roles
          | Raise e => e = UnicodeDecodeError /\ reg_type r = Some dbus.String
          end) as Hroles.
  { destruct (reg_roles r) as [listed|] eqn:Hlisted.
    - destruct (bool_decide (listed ≠ []) && bool_decide (None ∈ listed)) eqn:Hignore;
        [exact Hdom|].
      apply Hstore. intros key Hkey. rewrite Hdom. apply elem_of_list_to_set.
      destruct key as [role_name|].
      + apply (Hdecl listed role_name Hlisted Hkey).
      + apply andb_false_iff in Hignore as [Hempty|Hnone].
        * apply bool_decide_eq_false in Hempty. destruct listed; [inversion Hkey|].
          exfalso. apply Hempty. discriminate.
        * apply bool_decide_eq_false in Hnone. contradiction.
    - apply Hstore. intros key Hkey. rewrite Hdom. apply elem_of_list_to_set. exact Hkey. }
  destruct value; [exact Hdom|exact Hroles..].
Qed.



Example undeclared_role_raises :
  _parse_manufacturer_data (Inputs.device_info [Some "temperature"] [Inputs.tank_level]) [x07]
  = Raise (KeyError "tank").
Proof. reflexivity. Qed.

(** ** The table a decode uses *)

(** For a device the scanner knows, the callback decodes every payload
    with the stored device and leaves the scanner as it is. *)
Lemma scan_items_known (w : DbusBleSensors.World) (dev_mac : string) (dev_name : option string)
    (dev : Instance) (st : DbusBleSensors.State) (items : list (Z * list byte))
    (written : list (list (string * gmap string pyval))) :
  DbusBleSensors._known_mac st !! dev_mac = Some dev ->
  DbusBleSensors.scan_items w dev_mac dev_name items written st
  = (st,
     written' ← for_each
                  (fun acc item =>
                     out ← handle_data (DbusBleSensors.ble_service w) dev item.2;
                     Ok (acc ++ [out]))
                  items written;
     Ok (DbusBleSensors.Handled written')).
Proof.
  intros Hknown. revert written.
  induction items as [|[man_id man_data] items IH]; intros written; [reflexivity|].
  cbn [DbusBleSensors.scan_items for_each snd]. rewrite Hknown.
  destruct (handle_data (DbusBleSensors.ble_service w) dev man_data) as [out|e];
    [|reflexivity].
  cbn [mbind result_bind Py.bind]. apply IH.
Qed.

Lemma init_keeps (registry : BleRole.registry) (self self' : Instance) :
  init registry self = Ok self' ->
  regs (info self') = regs (info self) /\ roles (info self') = roles (info self).
Proof.
  unfold init. intros H.
  apply bind_Ok_inv in H as (info' & Hload & H).
  apply bind_Ok_inv in H as ([] & _ & H).
  apply bind_Ok_inv in H as (rl & _ & H).
  apply bind_Ok_inv in H as (services & _ & H).
  injection H as <-. cbn [info].
  destruct (_load_configuration_keeps _ _ _ Hload) as (Hregs & _ & Hroles).
  split; assumption.
Qed.

(** For a device the scanner does not know, the device it keeps, if any,
    is the one [configure] and [init] built from this payload. *)
Lemma scan_items_new (w : DbusBleSensors.World) (dev_mac : string) (dev_name : option string)
    (st : DbusBleSensors.State) (man_id : Z) (man_data : list byte)
    (items : list (Z * list byte)) (written : list (list (string * gmap string pyval)))
    (device_class : Class) (dev' : Instance) :
  DbusBleSensors._known_mac st !! dev_mac = None ->
  DbusBleSensors.DEVICE_CLASSES w !! man_id = Some device_class ->
  DbusBleSensors._known_mac
    (DbusBleSensors.scan_items w dev_mac dev_name ((man_id, man_data) :: items) written st).1
  !! dev_mac = Some dev' ->
  exists info1,
    configure device_class (info (__init__ device_class dev_mac dev_name)) man_data = Ok info1 /\
    regs (info dev') = regs info1 /\ roles (info dev') = roles info1.
Proof.
  intros Hnew Hcls. cbn [DbusBleSensors.scan_items]. rewrite Hnew, Hcls.
  destruct (configure device_class _ man_data) as [info1|e] eqn:Hconf;
    cbn [mbind result_bind Py.bind]; [|cbn [fst]; rewrite Hnew; discriminate].
  destruct (init _ _) as [dev1|e] eqn:Hinit; [|cbn [fst]; rewrite Hnew; discriminate].
  destruct (init_keeps _ _ _ Hinit) as [Hregs Hroles]. cbn [info] in Hregs, Hroles.
  assert (DbusBleSensors._known_mac (DbusBleSensors.remember dev_mac dev1 st) !! dev_mac
          = Some dev1) as Hkept by apply lookup_insert_eq.
  destruct (handle_data _ dev1 man_data) as [out|e].
  - rewrite (scan_items_known w dev_mac dev_name dev1 _ items _ Hkept). cbn [fst].
    rewrite Hkept. intros [= <-]. exists info1. repeat split; assumption.
  - cbn [fst]. rewrite Hkept. intros [= <-]. exists info1. repeat split; assumption.
Qed.

(** C5 (as amended): the register table of a Teltonika device is computed
    by [configure] from the payload of the first advertisement the scanner
    handles for the device; for a device the scanner already knows, the
    callback does not call [configure]: it leaves the stored device as it
    is and [handle_data] decodes the payload with the table stored in
    [info]. *)
Theorem C5_table_of_first_payload :
  forall (w : DbusBleSensors.World) (address : string) (dev_name : option string)
         (man_id : Z) (man_data : list byte) (st : DbusBleSensors.State),
    let dev_mac := lower (without_char ":" address) in
    dev_mac ∉ DbusBleSensors._ignored_mac st ->
    (forall dev : Instance,
       DbusBleSensors._known_mac st !! dev_mac = Some dev ->
       DbusBleSensors._scan_callback w address dev_name (Some [(man_id, man_data)]) st
       = (st,
          out ← handle_data (DbusBleSensors.ble_service w) dev man_data;
          Ok (DbusBleSensors.Handled [out])) /\
       (is_device_enabled (DbusBleSensors.ble_service w) (info dev) = Ok true ->
        handle_data (DbusBleSensors.ble_service w) dev man_data
        = (parsed ← _parse_manufacturer_data (info dev) man_data;
           for_each (publish_role parsed) (_role_services dev) []))) /\
    (DbusBleSensors._known_mac st !! dev_mac = None ->
     DbusBleSensors.DEVICE_CLASSES w !! man_id = Some BleDeviceTeltonika.cls ->
     forall dev' : Instance,
       DbusBleSensors._known_mac
         (DbusBleSensors._scan_callback w address dev_name (Some [(man_id, man_data)]) st).1
       !! dev_mac = Some dev' ->
       exists info0 info1,
         BleDeviceTeltonika._compute_regs info0 man_data = Ok info1 /\
         regs (info dev') = regs info1 /\ roles (info dev') = roles info1).
Proof.
  intros w address dev_name man_id man_data st dev_mac Hignored.
  assert (DbusBleSensors._scan_callback w address dev_name (Some [(man_id, man_data)]) st
          = DbusBleSensors.scan_items w dev_mac dev_name [(man_id, man_data)] [] st) as Hcall.
  { unfold DbusBleSensors._scan_callback. fold dev_mac.
    rewrite bool_decide_eq_false_2 by exact Hignored. reflexivity. }
  split.
  - intros dev Hknown. split.
    + rewrite Hcall, (scan_items_known w dev_mac dev_name dev st _ _ Hknown).
      cbn [for_each snd]. destruct (handle_data _ dev man_data); reflexivity.
    + intros Henabled. unfold handle_data. rewrite Henabled. reflexivity.
  - intros Hnew Hcls dev' Hkept. rewrite Hcall in Hkept.
    destruct (scan_items_new w dev_mac dev_name st man_id man_data [] []
                BleDeviceTeltonika.cls dev' Hnew Hcls Hkept) as (info1 & Hconf & Hregs & Hroles).
    cbn [configure BleDeviceTeltonika.cls] in Hconf. unfold BleDeviceTeltonika.configure in Hconf.
    eexists _, info1. split; [exact Hconf|]. split; assumption.
Qed.

Lemma C5_table_of_first_payload_witness :
  Inputs.second_seen
  = (Inputs.first_seen.1,
     Ok (DbusBleSensors.Handled [[("temperature", {["LowBattery" := VBool false]})]])).
Proof.
  assert (from_option
            (fun dev =>
               out ← handle_data (DbusBleSensors.ble_service Inputs.world) dev
                       Inputs.eye_humidity;
               Ok (DbusBleSensors.Handled [out]))
            (Raise (KeyError Inputs.eye_mac))
            (DbusBleSensors._known_mac Inputs.first_seen.1 !! Inputs.eye_mac)
          = Ok (DbusBleSensors.Handled [[("temperature", {["LowBattery" := VBool false]})]]))
    as Hout by (vm_compute; reflexivity).
  destruct (DbusBleSensors._known_mac Inputs.first_seen.1 !! Inputs.eye_mac) as [dev|] eqn:Hdev;
    [|discriminate Hout].
  cbn [from_option] in Hout.
  destruct (C5_table_of_first_payload Inputs.world Inputs.eye_address (Some "EYE")
              BleDeviceTeltonika.MANUFACTURER_ID Inputs.eye_humidity Inputs.first_seen.1)
    as [Hknown _].
  - vm_compute. intros H. inversion H.
  - destruct (Hknown dev Hdev) as [Hcall _].
    unfold Inputs.second_seen. rewrite Hcall, Hout. reflexivity.
Defined.

(** C5 as stated fails: the scanner sees a Teltonika device, first with
    the temperature flag, then with the humidity flag.  The device it holds
    after the second advertisement has the table of the first,
    [Temperature] at offset 2 and no [Humidity]; the second callback is
    [handle_data] on the device the first one stored, and writes nothing
    but [LowBattery].  The table
    recomputed from the second payload has [Humidity] at offset 2, and
    decoding with it gives the humidity the callback did not write. *)
Lemma C5_counterexample :
  Inputs.stored_table Inputs.first_seen.1
  = Some (Val [BleDeviceTeltonika.Version; BleDeviceTeltonika.EyeFlags;
               BleDeviceTeltonika.LowBattery; BleDeviceTeltonika.Temperature 2]) /\
  Inputs.stored_table Inputs.second_seen.1
  = Some (Val [BleDeviceTeltonika.Version; BleDeviceTeltonika.EyeFlags;
               BleDeviceTeltonika.LowBattery; BleDeviceTeltonika.Temperature 2]) /\
  Inputs.second_seen.2
  = from_option
      (fun dev =>
         out ← handle_data (DbusBleSensors.ble_service Inputs.world) dev Inputs.eye_humidity;
         Ok (DbusBleSensors.Handled [out]))
      (Raise (KeyError Inputs.eye_mac))
      (DbusBleSensors._known_mac Inputs.first_seen.1 !! Inputs.eye_mac) /\
  Inputs.second_seen.2
  = Ok (DbusBleSensors.Handled [[("temperature", {["LowBattery" := VBool false]})]]) /\
  (info ← Inputs.recomputed; Ok (regs info))
  = Ok (Val [BleDeviceTeltonika.Version; BleDeviceTeltonika.EyeFlags;
             BleDeviceTeltonika.LowBattery; BleDeviceTeltonika.Humidity 2]) /\
  Inputs.decoded_with_recomputed
  = Ok (Some (<["Humidity" := VNum (PInt 50)]> {["LowBattery" := VBool false]})).
Proof.
  repeat split; vm_compute; reflexivity.
Qed.

(** ** Range of the integer read from a span *)

Lemma from_bytes_little_range (bs : list byte) :
  0 <= from_bytes_little bs < 2 ^ (8 * Z.of_nat (length bs)).
Proof.
  induction bs as [|b bs IH]; [cbn; lia|].
  cbn [from_bytes_little length]. pose proof (byte_val_range b) as Hb.
  replace (8 * Z.of_nat (S (length bs))) with (8 + 8 * Z.of_nat (length bs)) by lia.
  rewrite Z.pow_add_r by lia. change (2 ^ 8) with 256. lia.
Qed.

Lemma from_bytes_unsigned_range (bs : list byte) (o : byteorder) :
  0 <= from_bytes_unsigned bs o < 2 ^ (8 * Z.of_nat (length bs)).
Proof.
  destruct o; cbn [from_bytes_unsigned].
  - rewrite <- length_rev. apply from_bytes_little_range.
  - apply from_bytes_little_range.
Qed.

(** [int.from_bytes] gives an [n]-byte unsigned or two's complement value. *)
Lemma from_bytes_range (bs : list byte) (o : byteorder) (sg : bool) :
  let n := 8 * Z.of_nat (length bs) in
  if sg then - 2 ^ (n - 1) <= from_bytes bs o sg < 2 ^ (n - 1) \/ (n = 0 /\ from_bytes bs o sg = 0)
  else 0 <= from_bytes bs o sg < 2 ^ n.
Proof.
  cbv zeta. pose proof (from_bytes_unsigned_range bs o) as Hu. unfold from_bytes.
  destruct sg; cbn [andb]; [|exact Hu].
  destruct (0 <? 8 * Z.of_nat (length bs)) eqn:Hn; cbn [andb].
  - apply Z.ltb_lt in Hn. left.
    assert (2 ^ (8 * Z.of_nat (length bs)) = 2 * 2 ^ (8 * Z.of_nat (length bs) - 1)) as Hpow.
    { rewrite <- Z.pow_succ_r by lia. f_equal. lia. }
    destruct (2 ^ (8 * Z.of_nat (length bs) - 1) <=? from_bytes_unsigned bs o) eqn:Hhigh.
    + apply Z.leb_le in Hhigh. lia.
    + apply Z.leb_gt in Hhigh. lia.
  - apply Z.ltb_ge in Hn. right. split; [lia|].
    assert (length bs = 0%nat) as Hl by lia. destruct bs; [|discriminate]. destruct o; reflexivity.
Qed.

Lemma length_slice (data : list byte) (offset size : N) :
  fits data offset size -> length (slice data offset size) = N.to_nat size.
Proof.
  unfold fits, slice. intros H. rewrite length_take, length_drop. lia.
Qed.

(** X1: a register [load_int] can read, without mask, shift, scale, bias,
    xlate or invalidate flag, decodes to the integer of its span: for an
    unsigned type a value from [0] to [2^(8 size) - 1], for a signed type
    with a span that is not empty a value from [-2^(8 size - 1)] to
    [2^(8 size - 1) - 1]. *)
Theorem X1_plain_register_range :
  forall (r : Reg) (data : list byte) (t : dbus.types) (offset bits : N),
    readable r data t offset bits ->
    reg_mask r = None -> reg_shift r = None -> reg_scale r = None -> reg_bias r = None ->
    reg_xlate r = None -> "REG_FLAG_INVALID" ∉ flags r ->
    exists v : Z,
      load_int r data = Ok (VNum (PInt v)) /\
      let n := 8 * Z.of_N (span_size r bits) in
      (signed t = false -> 0 <= v < 2 ^ n) /\
      (signed t = true -> 0 < n -> - 2 ^ (n - 1) <= v < 2 ^ (n - 1)).
Proof.
  intros r data t offset bits Hr Hm Hsh Hsc Hb Hx Hf.
  exists (raw_value r t data offset bits). split.
  - rewrite (load_int_readable _ _ _ _ _ Hr).
    unfold invalidate_check, transformed, mask_then_shift, apply_xlate, apply_bias,
      apply_scale, apply_shift, apply_mask.
    rewrite bool_decide_eq_false_2 by exact Hf. rewrite Hm, Hsh, Hsc, Hb, Hx. reflexivity.
  - cbv zeta. unfold raw_value.
    pose proof (from_bytes_range (slice data offset (span_size r bits)) (order r) (signed t))
      as Hrange.
    cbv zeta in Hrange. rewrite (length_slice _ _ _ (readable_fits _ _ _ _ _ Hr)) in Hrange.
    rewrite N_nat_Z in Hrange.
    split; intros Hs; rewrite Hs in *; [exact Hrange|].
    intros Hn. destruct Hrange as [H|[H _]]; [exact H|lia].
Qed.

Lemma X1_plain_register_range_witness :
  exists v : Z,
    load_int Inputs.level [x00; xfe; xff] = Ok (VNum (PInt v)) /\
    let n := 8 * Z.of_N (span_size Inputs.level 16) in
    (signed dbus.UInt16 = false -> 0 <= v < 2 ^ n) /\
    (signed dbus.UInt16 = true -> 0 < n -> - 2 ^ (n - 1) <= v < 2 ^ (n - 1)).
Proof.
  apply (X1_plain_register_range Inputs.level [x00; xfe; xff] dbus.UInt16 1 16);
    try reflexivity.
  - split; [reflexivity..|]. unfold fits. vm_compute. discriminate.
  - vm_compute. intros H. inversion H.
Defined.

(** ** The mask *)

Lemma land_mask_range (v mask : Z) : 0 <= mask -> 0 <= Z.land v mask <= mask.
Proof.
  intros Hm. apply Z.ldiff_le; [exact Hm|].
  apply Z.bits_inj'. intros i Hi.
  rewrite Z.ldiff_spec, Z.land_spec, Z.bits_0. destruct (Z.testbit v i), (Z.testbit mask i); reflexivity.
Qed.

(** X2: with a mask that is not negative and no shift, scale, bias, xlate
    or invalidate flag, a register [load_int] can read decodes to an integer
    from [0] to the mask, whatever the type and the payload. *)
Theorem X2_mask_bounds :
  forall (r : Reg) (data : list byte) (t : dbus.types) (offset bits : N) (mask : Z),
    readable r data t offset bits ->
    reg_mask r = Some mask -> 0 <= mask ->
    reg_shift r = None -> reg_scale r = None -> reg_bias r = None ->
    reg_xlate r = None -> "REG_FLAG_INVALID" ∉ flags r ->
    exists v : Z, load_int r data = Ok (VNum (PInt v)) /\ 0 <= v <= mask.
Proof.
  intros r data t offset bits mask Hr Hm Hpos Hsh Hsc Hb Hx Hf.
  exists (Z.land (raw_value r t data offset bits) mask). split.
  - rewrite (load_int_readable _ _ _ _ _ Hr).
    unfold invalidate_check, transformed, mask_then_shift, apply_xlate, apply_bias,
      apply_scale, apply_shift, apply_mask.
    rewrite bool_decide_eq_false_2 by exact Hf. rewrite Hm, Hsh, Hsc, Hb, Hx. reflexivity.
  - apply land_mask_range, Hpos.
Qed.

Lemma X2_mask_bounds_witness :
  exists v : Z,
    load_int (BleDeviceTeltonika.MovementCount 2) [x01; x10; xff; xff] = Ok (VNum (PInt v)) /\
    0 <= v <= 0x7FFF.
Proof.
  apply (X2_mask_bounds (BleDeviceTeltonika.MovementCount 2) [x01; x10; xff; xff]
           dbus.UInt16 2 16 0x7FFF); try reflexivity.
  - split; [reflexivity..|]. unfold fits. vm_compute. discriminate.
  - lia.
  - vm_compute. intros H. apply list_elem_of_singleton in H. discriminate.
Defined.

(** ** Bytes after the span *)

Lemma slice_app (data extra : list byte) (offset size : N) :
  fits data offset size -> slice (data ++ extra) offset size = slice data offset size.
Proof.
  unfold fits, slice. intros H.
  rewrite drop_app_le by lia. apply take_app_le. rewrite length_drop. lia.
Qed.

Lemma fits_app (data extra : list byte) (offset size : N) :
  fits data offset size -> fits (data ++ extra) offset size.
Proof. unfold fits. rewrite length_app. lia. Qed.

(** X3: bytes that follow the span of a register do not change what it
    decodes to: when the payload covers the span, [load_int] (and
    [load_str] for a string) gives the same result on the payload extended
    by any bytes. *)
Theorem X3_trailing_bytes_ignored :
  forall (r : Reg) (data extra : list byte) (t : dbus.types) (offset size : N),
    reg_type r = Some t -> reg_offset r = Some offset -> required_span r t = Some size ->
    fits data offset size ->
    load r (data ++ extra) = load r data.
Proof.
  intros r data extra t offset size Ht Ho Hs Hf.
  assert (forall bits, effective_bits r t = Some bits -> span_size r bits = size ->
            load_int r (data ++ extra) = load_int r data) as Hint.
  { intros bits Hb Hsize.
    assert (readable r data t offset bits) as Hr by (split; try assumption; rewrite Hsize; exact Hf).
    assert (readable r (data ++ extra) t offset bits) as Hr'
      by (split; try assumption; rewrite Hsize; apply fits_app, Hf).
    rewrite (load_int_readable _ _ _ _ _ Hr), (load_int_readable _ _ _ _ _ Hr').
    unfold raw_value. rewrite Hsize, (slice_app _ _ _ _ Hf). reflexivity. }
  unfold load. rewrite Ht. cbn [getitem mbind result_bind Py.bind].
  unfold required_span in Hs.
  destruct t;
    try (destruct (effective_bits r _) as [bits|] eqn:Hb; [|discriminate];
         injection Hs as Hs; rewrite (Hint bits eq_refl Hs); reflexivity).
  - destruct (reg_bits r) as [bits|] eqn:Hb; [|discriminate]. injection Hs as <-.
    unfold load_str. rewrite Ho, Hb. cbn [getitem mbind result_bind Py.bind].
    fold (string_size bits).
    pose proof (fits_app data extra _ _ Hf) as Hf'.
    apply gtb_false_iff in Hf'. rewrite Hf'.
    pose proof Hf as Hf2. apply gtb_false_iff in Hf2. rewrite Hf2.
    rewrite (slice_app _ _ _ _ Hf). reflexivity.
  - discriminate.
Qed.

Lemma X3_trailing_bytes_ignored_witness :
  load Inputs.level ([x00; xfe; xff] ++ [x12; x34]) = load Inputs.level [x00; xfe; xff].
Proof.
  apply (X3_trailing_bytes_ignored Inputs.level [x00; xfe; xff] [x12; x34] dbus.UInt16 1 2);
    try reflexivity.
  unfold fits. vm_compute. discriminate.
Defined.

(** ** Boolean registers *)



(** ** The signed byte of the Teltonika pitch *)

Lemma Qle_bool_inject_Z (a b : Z) : Qle_bool (inject_Z a) (inject_Z b) = (a <=? b).
Proof.
  destruct (a <=? b) eqn:H.
  - apply Qle_bool_iff. rewrite <- Zle_Qle. apply Z.leb_le, H.
  - apply not_true_is_false. intros Hq. apply Qle_bool_iff in Hq.
    rewrite <- Zle_Qle in Hq. apply Z.leb_gt in H. lia.
Qed.

(** X5: the [Pitch] register, a [Byte] passed through [_byteToSignedInt],
    decodes the byte at its offset as a two's complement 8-bit integer: the
    value lies between -128 and 127, is congruent to the byte modulo 256,
    and is what [int.from_bytes] gives for the byte read as signed. *)
Theorem X5_pitch_signed_byte :
  forall (data : list byte) (offset : N) (b : byte),
    data !! N.to_nat offset = Some b ->
    exists v : Z,
      load_int (BleDeviceTeltonika.Pitch offset) data = Ok (VNum (PInt v)) /\
      -128 <= v <= 127 /\ v mod 256 = byte_val b /\ v = from_bytes [b] Little true.
Proof.
  intros data offset b Hb. pose proof (byte_val_range b) as Hrange.
  assert (load_int (BleDeviceTeltonika.Pitch offset) data
          = Ok (BleDeviceTeltonika._byteToSignedInt (VNum (PInt (byte_val b))))) as Hload.
  { rewrite (load_int_readable _ data dbus.Byte offset 8).
    - unfold raw_value. change (span_size (BleDeviceTeltonika.Pitch offset) 8) with 1%N.
      rewrite (slice_one data offset b Hb), from_bytes_one_unsigned. reflexivity.
    - split; [reflexivity..|]. apply (lookup_fits_one data offset b Hb). }
  rewrite Hload. unfold BleDeviceTeltonika._byteToSignedInt. cbn [num_Q].
  change 128%Q with (inject_Z 128). rewrite Qle_bool_inject_Z.
  unfold from_bytes. cbn [from_bytes_unsigned from_bytes_little length andb].
  change (0 <? 8 * Z.of_nat 1) with true. change (2 ^ (8 * Z.of_nat 1 - 1)) with 128.
  change (2 ^ (8 * Z.of_nat 1)) with 256. cbn [andb].
  replace (byte_val b + 256 * 0) with (byte_val b) by lia.
  destruct (128 <=? byte_val b) eqn:Hhigh.
  - apply Z.leb_le in Hhigh. exists (byte_val b + -256). cbn [add].
    split; [reflexivity|]. split; [lia|]. split; [|lia].
    rewrite <- (Z.mod_unique (byte_val b + -256) 256 (-1) (byte_val b)); [reflexivity|left; lia|lia].
  - apply Z.leb_gt in Hhigh. exists (byte_val b).
    split; [reflexivity|]. split; [lia|]. split; [|reflexivity].
    apply Z.mod_small. lia.
Qed.

Lemma X5_pitch_signed_byte_witness :
  exists v : Z,
    load_int (BleDeviceTeltonika.Pitch 2) [x01; x20; xf6] = Ok (VNum (PInt v)) /\
    -128 <= v <= 127 /\ v mod 256 = byte_val xf6 /\ v = from_bytes [xf6] Little true.
Proof.
  apply (X5_pitch_signed_byte [x01; x20; xf6] 2 xf6). reflexivity.
Defined.

(** ** The validators accept exactly the valid configurations *)

Lemma for_each_unit_all {A : Type} (f : A -> result unit) (l : list A) :
  (forall x, x ∈ l -> f x = Ok ()) -> for_each (fun _ x => f x) l () = Ok ().
Proof.
  induction l as [|y l IH]; intros H; [reflexivity|].
  cbn [for_each]. rewrite (H y) by left. cbn [Py.bind].
  apply IH. intros x Hx. apply H. right. exact Hx.
Qed.

Lemma for_each_unit_iff {A : Type} (f : A -> result unit) (l : list A) :
  for_each (fun _ x => f x) l () = Ok () <-> forall x, x ∈ l -> f x = Ok ().
Proof. split; [apply for_each_unit_Ok|apply for_each_unit_all]. Qed.

Lemma for_enumerate_all {A : Type} (check : nat -> A -> result unit) (l : list A) :
  (forall i x, l !! i = Some x -> check i x = Ok ()) -> for_enumerate check l = Ok ().
Proof.
  intros H. rewrite for_enumerate_eq.
  apply (for_each_unit_all (fun p => check p.1 p.2)). intros [i x] Hin.
  apply list_elem_of_lookup in Hin as [j Hj]. rewrite list_lookup_imap in Hj.
  destruct (l !! j) as [y|] eqn:Hy; [|discriminate]. injection Hj as <- <-.
  apply H, Hy.
Qed.

Lemma check_key_iff (key : string) {A : Type} (e : entry A) :
  check_key key (shape_of e) = Ok () <-> present e.
Proof.
  unfold present. destruct e; cbn; split; try discriminate; try (intros [H1 H2]; congruence);
    intros _; split; discriminate.
Qed.

Lemma check_isinstance_iff (err : string -> config_error) (key : string) {A : Type}
    (e : entry A) :
  check_isinstance err key (shape_of e) = Ok () <-> exists a, e = Val a.
Proof.
  split; [apply check_isinstance_Ok|]. intros [a ->]. reflexivity.
Qed.

Lemma check_role_iff (registry : BleRole.registry) (err : string -> config_error)
    (r : option string) :
  check_role registry err r = Ok () <->
  forall role_name, r = Some role_name -> is_Some (registry !! role_name).
Proof.
  unfold check_role. destruct r as [role_name|].
  - destruct (registry !! role_name) as [role|] eqn:Hr; split.
    + intros _ n [= <-]. rewrite Hr. eexists. reflexivity.
    + reflexivity.
    + discriminate.
    + intros H. destruct (H role_name eq_refl) as [role Hrole]. rewrite Hr in Hrole. discriminate.
  - split; [discriminate|reflexivity].
Qed.

Lemma check_setting_iff (index : nat) (s : Setting) :
  check_setting index s = Ok () <-> valid_setting s.
Proof.
  unfold check_setting, check_props_key, valid_setting.
  destruct (setting_name s) as [name|]; [|split; [discriminate|intros [[x Hx] _]; discriminate]].
  destruct (setting_props s) as [props|];
    [|split; [discriminate|intros (_ & p & Hp & _); discriminate]].
  split.
  - intros H. split; [eexists; reflexivity|]. exists props. split; [reflexivity|].
    destruct (props_def props) as [d|]; [|discriminate].
    destruct (props_min props) as [mn|]; [|discriminate].
    destruct (props_max props) as [mx|]; [|discriminate].
    repeat split; eexists; reflexivity.
  - intros (_ & p & [= <-] & [d Hd] & [mn Hmn] & [mx Hmx]).
    rewrite Hd, Hmn, Hmx. reflexivity.
Qed.

Lemma check_alarm_iff (index : nat) (a : Alarm) :
  check_alarm index a = Ok () <-> valid_alarm a.
Proof.
  unfold check_alarm, valid_alarm.
  destruct (alarm_name a) as [name|], (alarm_update a) as [update|]; split;
    try discriminate; try reflexivity;
    try (intros _; split; eexists; reflexivity);
    intros [[? H1] [? H2]]; discriminate.
Qed.

Lemma check_reg_iff (registry : BleRole.registry) (index : nat) (r : Reg) :
  check_reg registry index r = Ok () <-> valid_reg registry r.
Proof.
  unfold check_reg, check_reg_key, valid_reg.
  destruct (reg_name r) as [name|];
    [|split; [discriminate|intros [[? H] _]; discriminate]].
  destruct (reg_type r) as [t|];
    [|split; [discriminate|intros (_ & _ & (? & H & _) & _); discriminate]].
  destruct (reg_offset r) as [offset|];
    [|split; [discriminate|intros (_ & [? H] & _); discriminate]].
  cbn [getitem mbind result_bind Py.bind].
  destruct (bool_decide (t ∈ _ALLOWED_TYPES)) eqn:Hallowed.
  2:{ split; [discriminate|]. intros (_ & _ & (t' & [= <-] & Hin & _) & _).
      apply bool_decide_eq_false in Hallowed. contradiction. }
  apply bool_decide_eq_true in Hallowed. cbn [mbind result_bind Py.bind].
  assert ((if bool_decide (t = dbus.String) then
             match reg_bits r with
             | None => Raise (ValueError (RegMissingBits name))
             | Some bits =>
                 if negb (N.eqb (bits mod 8) 0) then Raise (ValueError (RegBitsNotMultipleOf8 name))
                 else Ok ()
             end
           else Ok ()) = Ok () <->
          (t = dbus.String -> exists bits, reg_bits r = Some bits /\ (bits mod 8 = 0)%N)) as Hbits.
  { destruct (bool_decide (t = dbus.String)) eqn:Hs.
    - apply bool_decide_eq_true in Hs.
      destruct (reg_bits r) as [bits|].
      + destruct (N.eqb (bits mod 8) 0) eqn:Hmod; cbn [negb]; split.
        * intros _ _. exists bits. split; [reflexivity|]. apply N.eqb_eq, Hmod.
        * reflexivity.
        * discriminate.
        * intros H. destruct (H Hs) as (b & [= <-] & Hb). apply N.eqb_neq in Hmod. contradiction.
      + split; [discriminate|]. intros H. destruct (H Hs) as (b & Hb & _). discriminate.
    - apply bool_decide_eq_false in Hs. split; [intros _ H; contradiction|reflexivity]. }
  assert (match reg_roles r with
          | Some roles =>
              for_each (fun _ r0 => check_role registry (fun r1 => RegUnknownRole r1 name) r0)
                roles ()
          | None => Ok ()
          end = Ok () <->
          (forall listed role_name,
             reg_roles r = Some listed -> Some role_name ∈ listed ->
             is_Some (registry !! role_name))) as Hroles.
  { destruct (reg_roles r) as [roles|].
    - rewrite (for_each_unit_iff (check_role registry (fun r1 => RegUnknownRole r1 name))).
      split.
      + intros H listed role_name [= <-] Hin.
        apply (proj1 (check_role_iff _ _ _) (H _ Hin) role_name eq_refl).
      + intros H x Hx. apply check_role_iff. intros role_name ->.
        apply (H roles role_name eq_refl Hx).
    - split; [intros _ listed role_name H; discriminate|reflexivity]. }
  split.
  - intros H. apply bind_Ok_inv in H as ([] & Hb & H).
    split; [eexists; reflexivity|]. split; [eexists; reflexivity|]. split.
    + exists t. split; [reflexivity|]. split; [exact Hallowed|]. apply Hbits, Hb.
    + apply Hroles, H.
  - intros (_ & _ & (t' & [= <-] & _ & Hb) & Hr).
    apply Hbits in Hb. rewrite Hb. cbn [mbind result_bind Py.bind]. apply Hroles, Hr.
Qed.

Lemma for_enumerate_iff {A : Type} (check : nat -> A -> result unit) (P : A -> Prop)
    (l : list A) :
  (forall i x, check i x = Ok () <-> P x) ->
  for_enumerate check l = Ok () <-> Forall P l.
Proof.
  intros H. rewrite Forall_forall. split.
  - intros Hok x Hx. destruct (for_enumerate_Ok _ _ Hok x Hx) as [i Hi]. apply (H i x), Hi.
  - intros Hall. apply for_enumerate_all. intros i x Hx. apply H, Hall.
    apply list_elem_of_lookup. exists i. exact Hx.
Qed.

Lemma check_configuration_valid (registry : BleRole.registry) (info : Info) :
  _check_configuration registry info = Ok () <-> valid_config registry info.
Proof.
  unfold _check_configuration, valid_config. split.
  - intros H.
    apply bind_Ok_inv in H as ([] & Hkeys & H).
    apply bind_Ok_inv in H as ([] & Hints & H).
    apply bind_Ok_inv in H as ([] & Hlists & H).
    pose proof (for_keys_Ok _ _ _ Hkeys) as Hk.
    pose proof (for_keys_Ok _ _ _ Hints) as Hi.
    pose proof (for_keys_Ok _ _ _ Hlists) as Hl.
    destruct (check_isinstance_Ok NotAList "roles" (roles info)) as [rl Hrl];
      [apply (Hl "roles"); set_solver|].
    destruct (check_isinstance_Ok NotAList "regs" (regs info)) as [rs Hrs];
      [apply (Hl "regs"); set_solver|].
    destruct (check_isinstance_Ok NotAList "settings" (settings info)) as [ss Hss];
      [apply (Hl "settings"); set_solver|].
    destruct (check_isinstance_Ok NotAList "alarms" (alarms info)) as [al Hal];
      [apply (Hl "alarms"); set_solver|].
    rewrite Hrl, Hrs, Hss, Hal in H. cbn [Config.get mbind result_bind Py.bind] in H.
    apply bind_Ok_inv in H as ([] & Hne1 & H).
    apply bind_Ok_inv in H as ([] & Hne2 & H).
    apply bind_Ok_inv in H as ([] & Hroles & H).
    apply bind_Ok_inv in H as ([] & Hregs & H).
    apply bind_Ok_inv in H as ([] & Hsettings & Halarms).
    split; [apply (check_isinstance_Ok NotAnInteger "manufacturer_id"),
              (Hi "manufacturer_id"); set_solver|].
    split; [apply (check_isinstance_Ok NotAnInteger "product_id"),
              (Hi "product_id"); set_solver|].
    split; [apply (check_key_iff "product_name"), (Hk "product_name"); set_solver|].
    split; [apply (check_key_iff "DeviceName"), (Hk "DeviceName"); set_solver|].
    split; [apply (check_key_iff "dev_prefix"), (Hk "dev_prefix"); set_solver|].
    exists rl, rs, ss, al. repeat split; try assumption.
    + apply (check_not_empty_Ok _ _ Hne1).
    + apply (check_not_empty_Ok _ _ Hne2).
    + intros role_name Hin.
      apply (proj1 (check_role_iff registry UnknownRole (Some role_name))); [|reflexivity].
      apply (for_each_unit_Ok (check_role registry UnknownRole) rl Hroles _ Hin).
    + apply (for_enumerate_iff (check_reg registry) (valid_reg registry));
        [apply check_reg_iff|exact Hregs].
    + apply (for_enumerate_iff check_setting valid_setting);
        [apply check_setting_iff|exact Hsettings].
    + apply (for_enumerate_iff check_alarm valid_alarm); [apply check_alarm_iff|exact Halarms].
  - intros ([mid Hmid] & [pid Hpid] & Hname & Hdev & Hprefix &
            rl & rs & ss & al & Hrl & Hrs & Hss & Hal & Hne1 & Hne2 & Hroles & Hregs &
            Hsettings & Halarms).
    assert (for_keys check_key (shape_at info)
              ["manufacturer_id"; "product_id"; "product_name"; "DeviceName"; "dev_prefix";
               "roles"; "regs"; "settings"; "alarms"] = Ok ()) as ->.
    { apply (for_each_unit_all (fun key => check_key key (shape_at info key))).
      intros key Hkey.
      repeat (apply elem_of_cons in Hkey as [->|Hkey]);
        [change (shape_at info "manufacturer_id") with (shape_of (manufacturer_id info))
        |change (shape_at info "product_id") with (shape_of (product_id info))
        |change (shape_at info "product_name") with (shape_of (product_name info))
        |change (shape_at info "DeviceName") with (shape_of (DeviceName info))
        |change (shape_at info "dev_prefix") with (shape_of (dev_prefix info))
        |change (shape_at info "roles") with (shape_of (roles info))
        |change (shape_at info "regs") with (shape_of (regs info))
        |change (shape_at info "settings") with (shape_of (settings info))
        |change (shape_at info "alarms") with (shape_of (alarms info))
        |inversion Hkey];
        rewrite ?Hmid, ?Hpid, ?Hrl, ?Hrs, ?Hss, ?Hal; try reflexivity;
        apply check_key_iff; assumption. }
    cbn [mbind result_bind Py.bind].
    assert (for_keys (check_isinstance NotAnInteger) (shape_at info)
              ["manufacturer_id"; "product_id"] = Ok ()) as ->.
    { unfold for_keys. cbn [for_each].
      change (shape_at info "manufacturer_id") with (shape_of (manufacturer_id info)).
      change (shape_at info "product_id") with (shape_of (product_id info)).
      rewrite Hmid, Hpid. reflexivity. }
    cbn [mbind result_bind Py.bind].
    assert (for_keys (check_isinstance NotAList) (shape_at info)
              ["roles"; "regs"; "settings"; "alarms"] = Ok ()) as ->.
    { unfold for_keys. cbn [for_each].
      change (shape_at info "roles") with (shape_of (roles info)).
      change (shape_at info "regs") with (shape_of (regs info)).
      change (shape_at info "settings") with (shape_of (settings info)).
      change (shape_at info "alarms") with (shape_of (alarms info)).
      rewrite Hrl, Hrs, Hss, Hal. reflexivity. }
    rewrite Hrl, Hrs, Hss, Hal. cbn [Config.get mbind result_bind Py.bind].
    assert (check_not_empty "roles" rl = Ok ()) as -> by (destruct rl; [contradiction|reflexivity]).
    assert (check_not_empty "regs" rs = Ok ()) as -> by (destruct rs; [contradiction|reflexivity]).
    cbn [mbind result_bind Py.bind].
    rewrite (for_each_unit_all (check_role registry UnknownRole) rl).
    2:{ intros r Hr. apply check_role_iff. intros role_name ->. apply Hroles, Hr. }
    cbn [mbind result_bind Py.bind].
    rewrite (proj2 (for_enumerate_iff (check_reg registry) (valid_reg registry) rs
                      (check_reg_iff registry)) Hregs).
    cbn [mbind result_bind Py.bind].
    rewrite (proj2 (for_enumerate_iff check_setting valid_setting ss check_setting_iff)
               Hsettings).
    cbn [mbind result_bind Py.bind].
    apply (for_enumerate_iff check_alarm valid_alarm al check_alarm_iff), Halarms.
Qed.

(** X6: [_check_configuration] returns without an exception exactly on the
    configurations that hold every mandatory key, the two identifiers as
    integers, non-empty lists of roles and registers, registered roles
    only, registers with a name, an offset and an allowed type (and a bit
    length that is a multiple of 8 for strings), settings with a name and
    the three properties, and alarms with a name and an update; on every
    other configuration it raises a configuration error. *)
Theorem X6_check_configuration_iff :
  forall (registry : BleRole.registry) (info : Info),
    (_check_configuration registry info = Ok () <-> valid_config registry info) /\
    (~ valid_config registry info ->
     exists why, _check_configuration registry info = Raise (ValueError why)).
Proof.
  intros registry info. split; [apply check_configuration_valid|].
  intros Hbad. apply _check_configuration_refuses. intros Hok.
  apply Hbad, check_configuration_valid, Hok.
Qed.

Lemma X6_check_configuration_iff_witness :
  _check_configuration Inputs.two_roles (Inputs.device_info [Some "tank"] [Inputs.level]) = Ok () /\
  exists why,
    _check_configuration Inputs.two_roles (Inputs.device_info [Some "tank"] [])
    = Raise (ValueError why).
Proof.
  split.
  - apply (X6_check_configuration_iff Inputs.two_roles
             (Inputs.device_info [Some "tank"] [Inputs.level])).
    split; [eexists; reflexivity|]. split; [eexists; reflexivity|].
    split; [split; discriminate|]. split; [split; discriminate|]. split; [split; discriminate|].
    exists [Some "tank"], [Inputs.level], [], [].
    repeat split; try reflexivity; try discriminate; try apply Forall_nil_2.
    + intros role_name Hin. apply list_elem_of_singleton in Hin. injection Hin as ->.
      eexists. reflexivity.
    + apply Forall_singleton. split; [eexists; reflexivity|]. split; [eexists; reflexivity|].
      split.
      * exists dbus.UInt16. split; [reflexivity|]. split; [|discriminate].
        unfold _ALLOWED_TYPES. repeat first [apply list_elem_of_here | apply list_elem_of_further].
      * intros listed role_name H. discriminate.
  - apply (X6_check_configuration_iff Inputs.two_roles (Inputs.device_info [Some "tank"] [])).
    intros (_ & _ & _ & _ & _ & rl & rs & ss & al & _ & Hrs & _ & _ & _ & Hne & _).
    injection Hrs as <-. contradiction.
Defined.

Lemma role_configuration_valid (info : BleRole.Info) :
  BleRole.check_configuration info = Ok () <-> valid_role info.
Proof.
  unfold BleRole.check_configuration, valid_role. split.
  - intros H.
    apply bind_Ok_inv in H as ([] & _ & H).
    apply bind_Ok_inv in H as ([] & Hkeys & H).
    apply bind_Ok_inv in H as ([] & Hints & H).
    apply bind_Ok_inv in H as ([] & Hlists & H).
    pose proof (for_keys_Ok _ _ _ Hkeys) as Hk.
    pose proof (for_keys_Ok _ _ _ Hints) as Hi.
    pose proof (for_keys_Ok _ _ _ Hlists) as Hl.
    destruct (check_isinstance_Ok NotAList "settings" (BleRole.settings info)) as [ss Hss];
      [apply (Hl "settings"); set_solver|].
    destruct (check_isinstance_Ok NotAList "alarms" (BleRole.alarms info)) as [al Hal];
      [apply (Hl "alarms"); set_solver|].
    rewrite Hss, Hal in H. cbn [Config.get mbind result_bind Py.bind] in H.
    apply bind_Ok_inv in H as ([] & Hsettings & Halarms).
    split; [apply (check_key_iff "name"), (Hk "name"); set_solver|].
    split; [apply (check_isinstance_Ok NotAnInteger "dev_instance"),
              (Hi "dev_instance"); set_solver|].
    exists ss, al. repeat split; try assumption.
    + apply (for_enumerate_iff check_setting valid_setting);
        [apply check_setting_iff|exact Hsettings].
    + apply (for_enumerate_iff check_alarm valid_alarm); [apply check_alarm_iff|exact Halarms].
  - intros (Hname & [z Hz] & ss & al & Hss & Hal & Hsettings & Halarms).
    assert (match BleRole.name info with
            | Missing => Raise (KeyError "name")
            | _ => Ok ()
            end = Ok ()) as ->.
    { destruct Hname as [Hm _]. destruct (BleRole.name info); [contradiction|reflexivity..]. }
    cbn [mbind result_bind Py.bind].
    assert (for_keys check_key (BleRole.shape_at info)
              ["name"; "dev_instance"; "settings"; "alarms"] = Ok ()) as ->.
    { unfold for_keys. cbn [for_each].
      change (BleRole.shape_at info "name") with (shape_of (BleRole.name info)).
      change (BleRole.shape_at info "dev_instance") with (shape_of (BleRole.dev_instance info)).
      change (BleRole.shape_at info "settings") with (shape_of (BleRole.settings info)).
      change (BleRole.shape_at info "alarms") with (shape_of (BleRole.alarms info)).
      rewrite (proj2 (check_key_iff "name" (BleRole.name info)) Hname), Hz, Hss, Hal.
      reflexivity. }
    cbn [mbind result_bind Py.bind].
    assert (for_keys (check_isinstance NotAnInteger) (BleRole.shape_at info) ["dev_instance"]
            = Ok ()) as ->.
    { unfold for_keys. cbn [for_each].
      change (BleRole.shape_at info "dev_instance") with (shape_of (BleRole.dev_instance info)).
      rewrite Hz. reflexivity. }
    cbn [mbind result_bind Py.bind].
    assert (for_keys (check_isinstance NotAList) (BleRole.shape_at info) ["settings"; "alarms"]
            = Ok ()) as ->.
    { unfold for_keys. cbn [for_each].
      change (BleRole.shape_at info "settings") with (shape_of (BleRole.settings info)).
      change (BleRole.shape_at info "alarms") with (shape_of (BleRole.alarms info)).
      rewrite Hss, Hal. reflexivity. }
    rewrite Hss, Hal. cbn [Config.get mbind result_bind Py.bind].
    rewrite (proj2 (for_enumerate_iff check_setting valid_setting ss check_setting_iff)
               Hsettings).
    cbn [mbind result_bind Py.bind].
    apply (for_enumerate_iff check_alarm valid_alarm al check_alarm_iff), Halarms.
Qed.

(** With the key [name], a role is refused with a configuration error. *)
Lemma role_configuration_errors (info : BleRole.Info) :
  BleRole.name info <> Missing -> config_errors_only (BleRole.check_configuration info).
Proof.
  intros Hname. unfold BleRole.check_configuration.
  apply config_errors_bind.
  { destruct (BleRole.name info); [contradiction|apply config_errors_Ok..]. }
  intros [] _.
  apply config_errors_bind; [apply for_keys_errors, check_key_errors|]. intros [] _.
  apply config_errors_bind; [apply for_keys_errors, check_isinstance_errors|]. intros [] _.
  apply config_errors_bind; [apply for_keys_errors, check_isinstance_errors|].
  intros [] Hlists. pose proof (for_keys_Ok _ _ _ Hlists) as Hl.
  destruct (check_isinstance_Ok NotAList "settings" (BleRole.settings info)) as [ss Hss];
    [apply (Hl "settings"); set_solver|].
  destruct (check_isinstance_Ok NotAList "alarms" (BleRole.alarms info)) as [al Hal];
    [apply (Hl "alarms"); set_solver|].
  rewrite Hss, Hal. cbn [Config.get mbind result_bind Py.bind].
  apply config_errors_bind; [apply for_enumerate_errors, check_setting_errors|].
  intros [] _. apply for_enumerate_errors, check_alarm_errors.
Qed.

(** X7: [BleRole.check_configuration] returns without an exception exactly
    on the roles with a name, an integer base instance, settings with a
    name and the three properties, and alarms with a name and an update; on
    every other role it raises, a configuration error unless the key [name]
    is absent (then the [KeyError] of the log prefix). *)
Theorem X7_role_check_configuration_iff :
  forall info : BleRole.Info,
    (BleRole.check_configuration info = Ok () <-> valid_role info) /\
    (~ valid_role info ->
     exists e, BleRole.check_configuration info = Raise e /\
               (BleRole.name info <> Missing -> exists why, e = ValueError why)).
Proof.
  intros info. split; [apply role_configuration_valid|].
  intros Hbad.
  destruct (BleRole.check_configuration info) as [[]|e] eqn:Hcheck.
  - destruct Hbad. apply role_configuration_valid, Hcheck.
  - exists e. split; [reflexivity|]. intros Hname.
    apply (role_configuration_errors info Hname e Hcheck).
Qed.

Lemma X7_role_check_configuration_iff_witness :
  valid_role BleRoleTank.info /\
  exists e, BleRole.check_configuration Inputs.silent_role = Raise e /\
            (BleRole.name Inputs.silent_role <> Missing -> exists why, e = ValueError why).
Proof.
  split.
  - apply X7_role_check_configuration_iff. reflexivity.
  - apply X7_role_check_configuration_iff.
    intros (_ & _ & ss & al & _ & Hal & _ & Halarms). injection Hal as <-.
    apply Forall_inv in Halarms. destruct Halarms as [_ [update Hu]]. discriminate.
Defined.

(** ** The Teltonika table for every payload *)

Lemma land_one_testbit (x shift : Z) :
  0 <= shift -> negb (Z.land (Z.shiftr x shift) 1 =? 0) = Z.testbit x shift.
Proof.
  intros Hs. rewrite Z.testbit_odd.
  change 1 with (Z.ones 1) at 1. rewrite Z.land_ones by lia.
  change (2 ^ 1) with 2. rewrite Zmod_odd.
  destruct (Z.odd (Z.shiftr x shift)); reflexivity.
Qed.

(** What the decode of a flag gives: the bit of the flag byte, and no flag
    at all on a payload without byte 1. *)
Lemma flag_truthy (data : list byte) (shift : N) :
  (shift <= 7)%N ->
  exists v, load_int (BleDeviceTeltonika.Flag shift) data = Ok v /\
            truthy v = TeltonikaTable.flag_bit data shift.
Proof.
  intros Hs. unfold TeltonikaTable.flag_bit.
  destruct (data !! 1%nat) as [b|] eqn:Hb.
  - eexists. split; [apply (load_int_flag data b shift Hs Hb)|].
    cbn [truthy num_truthy]. apply land_one_testbit. lia.
  - exists VNone. split; [|reflexivity].
    apply (load_int_truncated _ data dbus.Boolean 1 1); try reflexivity.
    rewrite (span_size_flag shift Hs). apply lookup_ge_None in Hb.
    unfold truncated. lia.
Qed.

(** One [if flag: ...] section of [_compute_regs], on a cursor that is
    known: the section is appended when the flag is set. *)
Lemma section_step (v : pyval) (b : bool)
    (new_regs : list Reg) (new_role : list role) (width : N)
    (cur_regs : list Reg) (cur_roles : list role) (cur_offset : N) :
  truthy v = b ->
  BleDeviceTeltonika.section v new_regs new_role width
    {| BleDeviceTeltonika.cur_regs := cur_regs;
       BleDeviceTeltonika.cur_roles := cur_roles;
       BleDeviceTeltonika.cur_offset := cur_offset |}
  = {| BleDeviceTeltonika.cur_regs := cur_regs ++ (if b then new_regs else []);
       BleDeviceTeltonika.cur_roles := cur_roles ++ (if b then new_role else []);
       BleDeviceTeltonika.cur_offset := (cur_offset + TeltonikaTable.width b width)%N |}.
Proof.
  intros <-. unfold BleDeviceTeltonika.section, TeltonikaTable.width.
  destruct (truthy v); [reflexivity|].
  rewrite !app_nil_r, N.add_0_r. reflexivity.
Qed.

Lemma width_zero (b : bool) : TeltonikaTable.width b 0 = 0%N.
Proof. destruct b; reflexivity. Qed.

(** The roles the sections list, without the repetitions. *)
Lemma teltonika_roles (b2 b0 b1 b4 b5 b7 : bool) :
  let listed := (((((([] ++ (if b2 then [Some "digitalinput"] else []))
                       ++ (if b0 then [Some "temperature"] else []))
                      ++ (if b1 then [Some "temperature"] else []))
                     ++ (if b4 then [Some "movement"] else []))
                    ++ (if b5 then [Some "movement"] else []))
                   ++ (if b7 then [] else [])) : list role in
  list_set listed
  = (if b2 then [Some "digitalinput"] else [])
      ++ (if b0 || b1 then [Some "temperature"] else [])
      ++ (if b4 || b5 then [Some "movement"] else []).
Proof. destruct b2, b0, b1, b4, b5, b7; vm_compute; reflexivity. Qed.

(** The result of [_compute_regs], with the roles up to their order. *)
Lemma compute_regs_result (info : Info) (data : list byte) :
  exists info_roles : list (option string),
    BleDeviceTeltonika._compute_regs info data
    = Ok (BleDeviceTeltonika.set_table (TeltonikaTable.table (TeltonikaTable.flag_bit data))
            info_roles info) /\
    info_roles ≡ₚ TeltonikaTable.role_list (TeltonikaTable.flag_bit data) /\
    NoDup info_roles.
Proof.
  destruct (flag_truthy data 2 ltac:(lia)) as (v2 & Hl2 & H2).
  destruct (flag_truthy data 0 ltac:(lia)) as (v0 & Hl0 & H0).
  destruct (flag_truthy data 1 ltac:(lia)) as (v1 & Hl1 & H1).
  destruct (flag_truthy data 4 ltac:(lia)) as (v4 & Hl4 & H4).
  destruct (flag_truthy data 5 ltac:(lia)) as (v5 & Hl5 & H5).
  destruct (flag_truthy data 7 ltac:(lia)) as (v7 & Hl7 & H7).
  exists (TeltonikaTable.role_list (TeltonikaTable.flag_bit data)).
  split; [|split; [reflexivity|]].
  - unfold BleDeviceTeltonika._compute_regs.
    rewrite Hl2, Hl0, Hl1, Hl4, Hl5, Hl7. cbn [mbind result_bind Py.bind].
    rewrite (section_step v2 _ _ _ _ _ _ _ H2). cbn [BleDeviceTeltonika.cur_offset].
    rewrite width_zero, N.add_0_r.
    rewrite (section_step v0 _ _ _ _ _ _ _ H0). cbn [BleDeviceTeltonika.cur_offset].
    rewrite (section_step v1 _ _ _ _ _ _ _ H1). cbn [BleDeviceTeltonika.cur_offset].
    rewrite (section_step v4 _ _ _ _ _ _ _ H4). cbn [BleDeviceTeltonika.cur_offset].
    rewrite (section_step v5 _ _ _ _ _ _ _ H5). cbn [BleDeviceTeltonika.cur_offset].
    rewrite (section_step v7 _ _ _ _ _ _ _ H7).
    cbn [BleDeviceTeltonika.cur_regs BleDeviceTeltonika.cur_roles].
    rewrite (teltonika_roles (TeltonikaTable.flag_bit data 2) (TeltonikaTable.flag_bit data 0)
               (TeltonikaTable.flag_bit data 1) (TeltonikaTable.flag_bit data 4)
               (TeltonikaTable.flag_bit data 5) (TeltonikaTable.flag_bit data 7)).
    rewrite <- !app_assoc. reflexivity.
  - unfold TeltonikaTable.role_list.
    destruct (TeltonikaTable.flag_bit data 2), (TeltonikaTable.flag_bit data 0),
      (TeltonikaTable.flag_bit data 1), (TeltonikaTable.flag_bit data 4),
      (TeltonikaTable.flag_bit data 5);
      apply (bool_decide_unpack _); vm_compute; exact I.
Qed.

(** X8: on every payload, also an empty one, [_compute_regs] returns, and
    the table it leaves is the header followed by the sections whose flag
    bit is set, in encoding order, each at 2 plus the widths of the
    sections present before it ([Roll] always at 8); the roles are those
    of the sections present, each once; a payload of less than two bytes
    gives the header alone and no role. *)
Theorem X8_compute_regs_table :
  forall (info : Info) (data : list byte),
    exists (info' : Info) (info_roles : list (option string)),
      BleDeviceTeltonika._compute_regs info data = Ok info' /\
      regs info' = Val (TeltonikaTable.table (TeltonikaTable.flag_bit data)) /\
      roles info' = Val info_roles /\
      info_roles ≡ₚ TeltonikaTable.role_list (TeltonikaTable.flag_bit data) /\
      NoDup info_roles /\
      ((length data < 2)%nat ->
       regs info' = Val [BleDeviceTeltonika.Version; BleDeviceTeltonika.EyeFlags;
                         BleDeviceTeltonika.LowBattery] /\
       info_roles = []).
Proof.
  intros info data.
  destruct (compute_regs_result info data) as (info_roles & Hregs & Hperm & Hnodup).
  eexists _, info_roles. split; [exact Hregs|].
  split; [reflexivity|]. split; [reflexivity|]. split; [exact Hperm|]. split; [exact Hnodup|].
  intros Hshort.
  assert (forall shift, TeltonikaTable.flag_bit data shift = false) as Hnone.
  { intros shift. unfold TeltonikaTable.flag_bit.
    rewrite (proj2 (lookup_ge_None data 1)) by lia. reflexivity. }
  split.
  - cbn [BleDeviceTeltonika.set_table regs]. unfold TeltonikaTable.table.
    rewrite !Hnone. reflexivity.
  - apply Permutation_nil_r. rewrite Hperm. unfold TeltonikaTable.role_list.
    rewrite !Hnone. reflexivity.
Qed.

Lemma X8_compute_regs_table_witness :
  exists (info' : Info) (info_roles : list (option string)),
    BleDeviceTeltonika._compute_regs (Inputs.device_info [] []) [x01] = Ok info' /\
    regs info' = Val (TeltonikaTable.table (TeltonikaTable.flag_bit [x01])) /\
    roles info' = Val info_roles /\
    info_roles ≡ₚ TeltonikaTable.role_list (TeltonikaTable.flag_bit [x01]) /\
    NoDup info_roles /\
    regs info' = Val [BleDeviceTeltonika.Version; BleDeviceTeltonika.EyeFlags;
                      BleDeviceTeltonika.LowBattery] /\
    info_roles = [].
Proof.
  destruct (X8_compute_regs_table (Inputs.device_info [] []) [x01])
    as (info' & info_roles & H1 & H2 & H3 & H4 & H5 & H6).
  destruct H6 as [H6 H7]; [cbn; lia|].
  exists info', info_roles. repeat split; assumption.
Defined.

(** ** Which Teltonika devices the scanner accepts *)




(** Every register of every table passes the register checks. *)
Lemma table_valid (registry : BleRole.registry) (flag : N -> bool) :
  TeltonikaTable.roles_registered registry ->
  Forall (valid_reg registry) (TeltonikaTable.table flag).
Proof.
  intros (Hd & Ht & Hm).
  assert (forall (r : Reg) (t : dbus.types),
            is_Some (reg_name r) -> is_Some (reg_offset r) -> reg_type r = Some t ->
            t ∈ _ALLOWED_TYPES -> t <> dbus.String ->
            (forall listed role_name, reg_roles r = Some listed -> Some role_name ∈ listed ->
                                      is_Some (registry !! role_name)) ->
            valid_reg registry r) as Hvalid.
  { intros r t Hn Ho Htype Hallowed Hstring Hroles.
    split; [exact Hn|]. split; [exact Ho|]. split; [|exact Hroles].
    exists t. split; [exact Htype|]. split; [exact Hallowed|]. intros H. contradiction. }
  assert (forall t : dbus.types, bool_decide (t ∈ _ALLOWED_TYPES) = true -> t ∈ _ALLOWED_TYPES)
    as Hallowed by (intros t H; apply bool_decide_eq_true in H; exact H).
  assert (forall (listed : list (option string)) (role_name : string),
            Forall (fun key => forall n, key = Some n -> is_Some (registry !! n)) listed ->
            Some role_name ∈ listed -> is_Some (registry !! role_name)) as Hlisted.
  { intros listed role_name Hall Hin. rewrite Forall_forall in Hall.
    apply (Hall _ Hin role_name eq_refl). }
  unfold TeltonikaTable.table.
  repeat (apply Forall_app; split);
    repeat match goal with |- context [if ?b then _ else _] => destruct b end;
    repeat apply Forall_cons_2; try apply Forall_nil_2;
    (eapply Hvalid;
     [eexists; reflexivity|eexists; reflexivity|reflexivity|apply Hallowed; reflexivity
     |discriminate
     |intros listed role_name [= <-] Hin; revert Hin; apply Hlisted;
      repeat apply Forall_cons_2; try apply Forall_nil_2; intros n [= <-]; assumption]).
Qed.



Lemma eye_roles_registered : TeltonikaTable.roles_registered Cases.eye_roles.
Proof. repeat split; eexists; reflexivity. Qed.


(** ** A Teltonika decode never raises *)

(** The registers of a table list roles of the table only, and none is a
    string. *)
Lemma table_registers (flag : N -> bool) (r : Reg) :
  r ∈ TeltonikaTable.table flag ->
  roles_declared (TeltonikaTable.role_list flag) r /\ reg_type r <> Some dbus.String.
Proof.
  unfold TeltonikaTable.table, TeltonikaTable.role_list.
  destruct (flag 0%N), (flag 1%N), (flag 2%N), (flag 4%N), (flag 5%N), (flag 7%N);
    cbn [app orb TeltonikaTable.width]; intros Hr;
    repeat (apply elem_of_cons in Hr as [-> | Hr]); try (inversion Hr; fail);
    (split; [|discriminate]);
    intros listed role_name Hlisted Hin; try discriminate Hlisted;
    injection Hlisted as <-; apply list_elem_of_singleton in Hin; try discriminate Hin;
    injection Hin as ->;
    repeat first [apply list_elem_of_here | apply list_elem_of_further].
Qed.

(** One register of a table keeps the keys of [values] and does not raise. *)
Lemma table_step (first payload : list byte) (info_roles : list (option string))
    (values : gmap (option string) (gmap string pyval)) (r : Reg) :
  info_roles ≡ₚ TeltonikaTable.role_list (TeltonikaTable.flag_bit first) ->
  r ∈ TeltonikaTable.table (TeltonikaTable.flag_bit first) ->
  dom values = list_to_set info_roles ->
  match parse_reg info_roles payload values r with
  | Ok values' => dom values' = list_to_set info_roles
  | Raise _ => False
  end.
Proof.
  intros Hperm Hr Hdom.
  destruct (table_registers _ r Hr) as [Hdecl Hstring].
  assert (check_reg Cases.eye_roles 0 r = Ok ()) as Hchecked.
  { apply check_reg_iff.
    pose proof (table_valid Cases.eye_roles (TeltonikaTable.flag_bit first)
                  eye_roles_registered) as Hall.
    rewrite Forall_forall in Hall. apply Hall, Hr. }
  assert (roles_declared info_roles r) as Hdecl'.
  { intros listed role_name Hl Hin. rewrite Hperm. apply (Hdecl listed role_name Hl Hin). }
  pose proof (parse_reg_keeps_keys Cases.eye_roles 0 info_roles payload values r
                Hchecked Hdecl' Hdom) as Hstep.
  destruct (parse_reg info_roles payload values r); [exact Hstep|].
  destruct Hstep as [_ Hs]. contradiction.
Qed.

(** X10: whatever payload the table of a Teltonika device was computed
    from, decoding any payload with it returns: no register of the table
    raises, not on an empty or cut payload either, and the mapping has
    exactly the roles of the table as keys. *)
Theorem X10_teltonika_decode_never_raises :
  forall (info : Info) (first payload : list byte),
    exists (info1 : Info) (values : gmap (option string) (gmap string pyval)),
      BleDeviceTeltonika._compute_regs info first = Ok info1 /\
      _parse_manufacturer_data info1 payload = Ok values /\
      forall key, key ∈ dom values <->
                  key ∈ TeltonikaTable.role_list (TeltonikaTable.flag_bit first).
Proof.
  intros info first payload.
  destruct (compute_regs_result info first) as (info_roles & Hregs & Hperm & _).
  rewrite Hregs.
  assert (exists values,
            _parse_manufacturer_data
              (BleDeviceTeltonika.set_table
                 (TeltonikaTable.table (TeltonikaTable.flag_bit first)) info_roles info) payload
            = Ok values /\ dom values = list_to_set info_roles) as (values & Hparse & Hdom).
  { unfold _parse_manufacturer_data.
    cbn [BleDeviceTeltonika.set_table roles regs Config.get mbind result_bind Py.bind].
    pose proof (for_each_invariant (parse_reg info_roles payload)
                  (fun values => dom values = list_to_set info_roles) (fun _ => False)
                  (TeltonikaTable.table (TeltonikaTable.flag_bit first))
                  (foldl (fun values r => <[r := ∅]> values) ∅ info_roles)) as Hloop.
    assert (dom (foldl (fun (values : gmap (option string) (gmap string pyval)) r =>
                          <[r := ∅]> values) ∅ info_roles)
            = list_to_set info_roles) as Hstart.
    { rewrite initial_values_keys, dom_empty_L. apply (right_id_L ∅ (∪)). }
    specialize (Hloop Hstart
                  (fun values r Hr Hdom =>
                     table_step first payload info_roles values r Hperm Hr Hdom)).
    destruct (for_each (parse_reg info_roles payload) _ _) as [values|e]; [|contradiction].
    exists values. split; [reflexivity|exact Hloop]. }
  eexists _, values. split; [reflexivity|]. split; [exact Hparse|].
  intros key. rewrite Hdom, elem_of_list_to_set, Hperm. reflexivity.
Qed.
